(** * Prometheus query builder ([common/python/grafana/query.py])

    A shallow embedding of the expression builder: the parameter
    formatter [format_params], the vector classes, the function wrappers
    and the aggregations, together with the properties of their
    constructors and of their string rendering. *)

From Stdlib Require Import String Ascii List ZArith Bool Lia.
From Stdlib Require Import DecimalString.
From Stdlib Require Import Floats.PrimFloat.
Import ListNotations.

Local Open Scope string_scope.

(** ** Python primitives used by the module *)

Module Py.

(** The one-character string holding a double quote. *)
Definition dquote : string := String (ascii_of_nat 34) EmptyString.

(** [s.startswith(p)] *)
Definition startswith (s p : string) : bool := String.prefix p s.

(** [s[n:]]: the string without its first [n] characters (empty when
    [s] is shorter). *)
Fixpoint slice_from (n : nat) (s : string) : string :=
  match n, s with
  | O, _ => s
  | S _, EmptyString => EmptyString
  | S n', String _ s' => slice_from n' s'
  end.

(** [sep.join(l)] *)
Definition join (sep : string) (l : list string) : string :=
  String.concat sep l.

(** Truth value of an [Optional[List[str]]]: [None] and the empty list
    are false. *)
Definition truthy {A : Type} (l : option (list A)) : bool :=
  match l with
  | Some (_ :: _) => true
  | _ => false
  end.

(** [x is not None] *)
Definition is_not_None {A : Type} (x : option A) : bool :=
  match x with
  | Some _ => true
  | None => false
  end.

(** [x in l] for a list of strings. *)
Definition str_in (x : string) (l : list string) : bool :=
  existsb (String.eqb x) l.

(** Numbers a caller can pass as a quantile: an [int] or a [float]
    (IEEE 754 binary64). *)
Inductive number : Type :=
| PyInt (z : Z)
| PyFloat (f : float).

(** The two integer literals the source compares against. *)
Definition float_of_literal (z : Z) : float :=
  if (z =? 0)%Z then PrimFloat.zero else PrimFloat.one.

(** [a < c] where [c] is the literal [0] or [1]: exact on integers,
    IEEE comparison on floats (false on NaN). *)
Definition lt_literal (a : number) (c : Z) : bool :=
  match a with
  | PyInt z => (z <? c)%Z
  | PyFloat f => PrimFloat.ltb f (float_of_literal c)
  end.

(** [a > c] where [c] is the literal [0] or [1]. *)
Definition gt_literal (a : number) (c : Z) : bool :=
  match a with
  | PyInt z => (c <? z)%Z
  | PyFloat f => PrimFloat.ltb (float_of_literal c) f
  end.

(** [str(z)] for an [int]. *)
Definition str_int (z : Z) : string :=
  NilZero.string_of_int (Z.to_int z).

(** Exceptions raised by the module, with their message. *)
Inductive exception : Type :=
| TypeError (msg : string)
| ValueError (msg : string).

(** Outcome of a call: a returned value or a raised exception. *)
Inductive result (A : Type) : Type :=
| Return (a : A)
| Raise (e : exception).
Arguments Return {A} a.
Arguments Raise {A} e.

Definition bind {A B : Type} (m : result A) (k : A -> result B) : result B :=
  match m with
  | Return a => k a
  | Raise e => Raise e
  end.

(** Whether a call raised a [TypeError], a [ValueError]. *)
Definition raises_TypeError {A : Type} (r : result A) : bool :=
  match r with
  | Raise (TypeError _) => true
  | _ => false
  end.

Definition raises_ValueError {A : Type} (r : result A) : bool :=
  match r with
  | Raise (ValueError _) => true
  | _ => false
  end.

(** [if c: raise e] *)
Definition raise_if (c : bool) (e : exception) : result unit :=
  if c then Raise e else Return tt.

(** Value of a parameter that has a default. *)
Definition default {A : Type} (d : A) (x : option A) : A :=
  match x with
  | Some a => a
  | None => d
  end.

End Py.

Import Py.

Declare Scope py_scope.
Notation "c1 ;; c2" := (Py.bind c1 (fun _ => c2))
  (at level 61, right associativity) : py_scope.
Local Open Scope py_scope.

(** ** The module *)

Module Query.

(** *** format_params *)

(** One iteration of the loop body of [format_params]: the expression
    appended for the item [(k, v)]. *)
Definition format_param (k v : string) : string :=
  if startswith v "~" then k ++ "=~" ++ dquote ++ slice_from 1 v ++ dquote
  else if startswith v "!~" then k ++ "!~" ++ dquote ++ slice_from 2 v ++ dquote
  else if startswith v "!" then k ++ "!=" ++ dquote ++ slice_from 1 v ++ dquote
  else k ++ "=" ++ dquote ++ v ++ dquote.

(** [format_params(params)]; [params.items()] is the list of items of
    the dict in insertion order. *)
Definition format_params (params : list (string * string)) : string :=
  let expression_list := map (fun '(k, v) => format_param k v) params in
  "{" ++ join ", " expression_list ++ "}".


(** *** Classes and objects *)

(** The classes of the module; [C_object] stands for Python's [object] and
    [C_other] for any class defined elsewhere. *)
Inductive class : Type :=
| C_object
| C_other
| C_InstantVector
| C_RangeVector
| C_HistogramQuantile
| C_Rate
| C_Increase
| C_Delta
| C_Scalar
| C_Aggregation
| C_Count
| C_Sum
| C_Max
| C_Min
| C_Avg.

Definition class_eqb (c d : class) : bool :=
  match c, d with
  | C_object, C_object | C_other, C_other
  | C_InstantVector, C_InstantVector | C_RangeVector, C_RangeVector
  | C_HistogramQuantile, C_HistogramQuantile | C_Rate, C_Rate
  | C_Increase, C_Increase | C_Delta, C_Delta | C_Scalar, C_Scalar
  | C_Aggregation, C_Aggregation | C_Count, C_Count | C_Sum, C_Sum
  | C_Max, C_Max | C_Min, C_Min | C_Avg, C_Avg => true
  | _, _ => false
  end.

(** The base named in each [class] statement. *)
Definition base (c : class) : option class :=
  match c with
  | C_object => None
  | C_other => Some C_object
  | C_InstantVector => Some C_object
  | C_RangeVector => Some C_object
  | C_HistogramQuantile => Some C_InstantVector
  | C_Rate => Some C_InstantVector
  | C_Increase => Some C_InstantVector
  | C_Delta => Some C_InstantVector
  | C_Scalar => Some C_InstantVector
  | C_Aggregation => Some C_InstantVector
  | C_Count => Some C_Aggregation
  | C_Sum => Some C_Aggregation
  | C_Max => Some C_Aggregation
  | C_Min => Some C_Aggregation
  | C_Avg => Some C_Aggregation
  end.

(** The chain of bases of [c], [c] first, followed for [fuel] steps. *)
Fixpoint bases (fuel : nat) (c : class) : list class :=
  c :: match fuel with
       | O => []
       | S fuel' => match base c with
                    | Some b => bases fuel' b
                    | None => []
                    end
       end.

(** Method resolution order; no chain of the module is longer than four
    classes. *)
Definition mro (c : class) : list class := bases 3 c.

Definition issubclass (c d : class) : bool := existsb (class_eqb d) (mro c).

(** The classes that run [_Aggregation.__init__]. *)
Inductive agg_class : Type :=
| A_Aggregation
| A_Count
| A_Sum
| A_Max
| A_Min
| A_Avg.

Definition class_of_agg (a : agg_class) : class :=
  match a with
  | A_Aggregation => C_Aggregation
  | A_Count => C_Count
  | A_Sum => C_Sum
  | A_Max => C_Max
  | A_Min => C_Min
  | A_Avg => C_Avg
  end.

(** The objects a caller can pass as a [vector] argument.  An object of
    one of the module's classes carries the attributes its [__init__]
    sets; [OOther] is an object of any other class, with its [str()]. *)
Inductive value : Type :=
| OInstantVector (metric params : string)
| ORangeVector (metric params lookback_window : string)
| OHistogramQuantile (quantile : number) (vector : value)
| ORate (rate_function : string) (vector : value)
| OIncrease (vector : value)
| ODelta (vector : value)
| OScalar (vector : value)
| OAggregation (cls : agg_class) (operator : string) (vector : value)
    (dimension : string)
| OOther (text : string).

(** [type(v)] *)
Definition type_of (v : value) : class :=
  match v with
  | OInstantVector _ _ => C_InstantVector
  | ORangeVector _ _ _ => C_RangeVector
  | OHistogramQuantile _ _ => C_HistogramQuantile
  | ORate _ _ => C_Rate
  | OIncrease _ => C_Increase
  | ODelta _ => C_Delta
  | OScalar _ => C_Scalar
  | OAggregation cls _ _ _ => class_of_agg cls
  | OOther _ => C_other
  end.

(** [isinstance(v, c)] *)
Definition isinstance (v : value) (c : class) : bool :=
  issubclass (type_of v) c.

(** [repr(l)] for a list of strings without quote characters, as in the
    messages built from [VALID_FUNCTIONS] and [VALID_OPERATORS]. *)
Definition repr_list (l : list string) : string :=
  "[" ++ join ", " (map (fun s => "'" ++ s ++ "'") l) ++ "]".

(** *** Constructors ([__init__]) *)

(** [InstantVector(metric, params='')] *)
Definition InstantVector (metric : string) (params : option string) : value :=
  OInstantVector metric (default "" params).

(** [RangeVector(metric, params='', lookback_window='2m')] *)
Definition RangeVector (metric : string) (params lookback_window : option string)
  : value :=
  ORangeVector metric (default "" params) (default "2m" lookback_window).

(** [HistogramQuantile(quantile, vector)] *)
Definition HistogramQuantile (quantile : number) (vector : value)
  : result value :=
  raise_if (lt_literal quantile 0 || gt_literal quantile 1)
    (ValueError "quantile should be between 0 and 1") ;;
  raise_if (negb (isinstance vector C_InstantVector))
    (TypeError "invalid vector type") ;;
  Return (OHistogramQuantile quantile vector).

Module Rate_.
Definition VALID_FUNCTIONS : list string := ["rate"; "irate"].
End Rate_.

(** [Rate(vector, rate_function='rate')] *)
Definition Rate (vector : value) (rate_function : option string)
  : result value :=
  let rate_function := default "rate" rate_function in
  raise_if (negb (isinstance vector C_RangeVector))
    (TypeError "invalid vector type") ;;
  raise_if (negb (str_in rate_function Rate_.VALID_FUNCTIONS))
    (ValueError ("Rate function should be one of: "
                 ++ repr_list Rate_.VALID_FUNCTIONS)) ;;
  Return (ORate rate_function vector).

(** [Increase(vector)] *)
Definition Increase (vector : value) : result value :=
  raise_if (negb (isinstance vector C_RangeVector))
    (TypeError "invalid vector type") ;;
  Return (OIncrease vector).

(** [Delta(vector)] *)
Definition Delta (vector : value) : result value :=
  raise_if (negb (isinstance vector C_RangeVector))
    (TypeError "invalid vector type") ;;
  Return (ODelta vector).

(** [Scalar(vector)] *)
Definition Scalar (vector : value) : result value :=
  raise_if (negb (isinstance vector C_InstantVector))
    (TypeError "invalid vector type") ;;
  Return (OScalar vector).

Module Aggregation_.
Definition VALID_OPERATORS : list string :=
  ["sum"; "min"; "max"; "avg"; "count"].
End Aggregation_.

(** [_Aggregation.__init__(self, operator, vector, by=None, without=None)]
    run on a fresh object of class [cls]. *)
Definition Aggregation_init (cls : agg_class) (operator : string) (vector : value)
  (by_ without : option (list string)) : result value :=
  raise_if (negb (isinstance vector C_InstantVector))
    (TypeError "invalid vector type") ;;
  raise_if (is_not_None by_ && is_not_None without)
    (ValueError "clause should be by or without, not both") ;;
  raise_if (negb (str_in operator Aggregation_.VALID_OPERATORS))
    (ValueError ("operator should be one of: "
                 ++ repr_list Aggregation_.VALID_OPERATORS)) ;;
  let dimension := "" in
  let dimension :=
    if truthy by_ then " by (" ++ join ", " (default [] by_) ++ ")"
    else dimension in
  let dimension :=
    if truthy without then " without (" ++ join ", " (default [] without) ++ ")"
    else dimension in
  Return (OAggregation cls operator vector dimension).

(** [_Aggregation(operator, vector, by, without)] *)
Definition _Aggregation := Aggregation_init A_Aggregation.

(** [Count(vector, by, without)] and its siblings call
    [super().__init__] with their operator. *)
Definition Count := Aggregation_init A_Count "count".
Definition Sum := Aggregation_init A_Sum "sum".
Definition Max := Aggregation_init A_Max "max".
Definition Min := Aggregation_init A_Min "min".
Definition Avg := Aggregation_init A_Avg "avg".

(** *** Rendering ([__str__]) *)

Section Rendering.

(** [str] of a Python [float] (its shortest round-trip decimal form) is
    not defined by this module. *)
Variable float_repr : float -> string.

(** [str(q)] for a quantile. *)
Definition str_number (q : number) : string :=
  match q with
  | PyInt z => str_int z
  | PyFloat f => float_repr f
  end.

(** [str(v)]: dispatches on the class of [v] to its [__str__]. *)
Fixpoint str (v : value) : string :=
  match v with
  | OInstantVector metric params => metric ++ params
  | ORangeVector metric params lookback_window =>
      metric ++ params ++ "[" ++ lookback_window ++ "]"
  | OHistogramQuantile quantile vector =>
      "histogram_quantile(" ++ str_number quantile ++ ", " ++ str vector ++ ")"
  | ORate rate_function vector => rate_function ++ "(" ++ str vector ++ ")"
  | OIncrease vector => "increase(" ++ str vector ++ ")"
  | ODelta vector => "delta(" ++ str vector ++ ")"
  | OScalar vector => "scalar(" ++ str vector ++ ")"
  | OAggregation _ operator vector dimension =>
      operator ++ "(" ++ str vector ++ ")" ++ dimension
  | OOther text => text
  end.

End Rendering.

End Query.

Import Query.

(** ** The selector clause as the specification words it *)

(** The clause for one label: the comparison is chosen by the prefix of
    the constraint, which is stripped. *)
Definition clause_spec (label constraint : string) : string :=
  match constraint with
  | String "~" v => label ++ "=~" ++ dquote ++ v ++ dquote
  | String "!" (String "~" v) => label ++ "!~" ++ dquote ++ v ++ dquote
  | String "!" v => label ++ "!=" ++ dquote ++ v ++ dquote
  | v => label ++ "=" ++ dquote ++ v ++ dquote
  end.

(** The clauses of a mapping, comma-space joined in input order, in
    braces. *)
Definition selector_spec (selectors : list (string * string)) : string :=
  "{" ++ String.concat ", " (map (fun kv => clause_spec (fst kv) (snd kv)) selectors)
      ++ "}".

(** ** Vocabulary of the specification *)

(** The object is a range vector. *)
Definition is_RangeVector (v : value) : Prop :=
  match v with
  | ORangeVector _ _ _ => True
  | _ => False
  end.

(** The object has the InstantVector capability: an instant vector, a
    function wrapper or an aggregation. *)
Definition instant_capable (v : value) : Prop :=
  match v with
  | ORangeVector _ _ _ | OOther _ => False
  | _ => True
  end.

(** The quantile lies outside the closed interval from 0 to 1. *)
Definition out_of_range (q : number) : Prop :=
  match q with
  | PyInt z => (z < 0 \/ 1 < z)%Z
  | PyFloat f => PrimFloat.ltb f PrimFloat.zero = true
                 \/ PrimFloat.ltb PrimFloat.one f = true
  end.

(** A grouping list was passed (possibly empty). *)
Definition supplied (l : option (list string)) : Prop := l <> None.

(** A grouping list was passed and has a label. *)
Definition non_empty (l : option (list string)) : Prop :=
  exists x xs, l = Some (x :: xs).

(** The labels of a grouping list, none when it was not passed. *)
Definition labels (l : option (list string)) : list string :=
  match l with
  | Some xs => xs
  | None => []
  end.

(** The wrappers that take an InstantVector-capable vector, with their
    other arguments. *)
Inductive wrapper : Type :=
| W_Scalar
| W_HistogramQuantile (quantile : number)
| W_Aggregation (cls : agg_class) (operator : string)
    (by_ without : option (list string)).

(** The constructor call a wrapper stands for. *)
Definition wrap (w : wrapper) (vector : value) : result value :=
  match w with
  | W_Scalar => Scalar vector
  | W_HistogramQuantile quantile => HistogramQuantile quantile vector
  | W_Aggregation cls operator by_ without =>
      Aggregation_init cls operator vector by_ without
  end.

(** Nesting: the wrappers applied one after the other, innermost first. *)
Fixpoint nest (ws : list wrapper) (vector : value) : result value :=
  match ws with
  | [] => Return vector
  | w :: ws' => Py.bind (wrap w vector) (nest ws')
  end.

(** The other arguments of the wrapper are in their domain. *)
Definition valid_arguments (w : wrapper) : Prop :=
  match w with
  | W_Scalar => True
  | W_HistogramQuantile quantile => ~ out_of_range quantile
  | W_Aggregation _ operator by_ without =>
      In operator Aggregation_.VALID_OPERATORS
      /\ ~ (supplied by_ /\ supplied without)
  end.

(** ** The object store

    The same constructors with object identity made explicit: objects live
    in a heap, a [vector] attribute holds a reference, and [__init__] runs
    statement by statement on the freshly allocated [self]. *)

Module Store.

(** The value of an attribute: a string, a number or a reference. *)
Inductive attr : Type :=
| AStr (s : string)
| ANum (q : number)
| ARef (r : nat).

(** An object: its class and its [__dict__]. *)
Record object : Type := mk_object {
  cls : class;
  dict : list (string * attr)
}.

(** The heap; a reference is an index into it. *)
Definition heap : Type := list object.

(** [o.name], when the attribute is set. *)
Fixpoint getattr (d : list (string * attr)) (name : string) : option attr :=
  match d with
  | [] => None
  | (k, a) :: d' => if String.eqb k name then Some a else getattr d' name
  end.

(** The dict after [o.name = a]. *)
Fixpoint assign (d : list (string * attr)) (name : string) (a : attr)
  : list (string * attr) :=
  match d with
  | [] => [(name, a)]
  | (k, b) :: d' =>
      if String.eqb k name then (k, a) :: d' else (k, b) :: assign d' name a
  end.

(** The heap with the object at [r] replaced by [f] of it. *)
Fixpoint update (r : nat) (f : object -> object) (h : heap) : heap :=
  match h, r with
  | [], _ => []
  | o :: h', O => f o :: h'
  | o :: h', S r' => o :: update r' f h'
  end.

(** Computations that read and write the heap and may raise. *)
Definition M (A : Type) : Type := heap -> result A * heap.

Definition ret {A : Type} (a : A) : M A := fun h => (Return a, h).

Definition raise {A : Type} (e : exception) : M A := fun h => (Raise e, h).

Definition bind {A B : Type} (m : M A) (k : A -> M B) : M B :=
  fun h =>
    match m h with
    | (Return a, h') => k a h'
    | (Raise e, h') => (Raise e, h')
    end.

(** [if c: raise e] *)
Definition raise_if (c : bool) (e : exception) : M unit :=
  if c then raise e else ret tt.

(** [self.name = a] *)
Definition setattr (self : nat) (name : string) (a : attr) : M unit :=
  fun h =>
    (Return tt,
     update self (fun o => mk_object (cls o) (assign (dict o) name a)) h).

(** [isinstance(v, c)] for the object at [v] (a reference to no object
    is an instance of nothing). *)
Definition isinstance (v : nat) (c : class) : M bool :=
  fun h =>
    (Return match nth_error h v with
            | Some o => issubclass (cls o) c
            | None => false
            end, h).

(** [c(...)]: allocate an object of class [c], run [init] on it and return
    it.  When [init] raises, nobody holds the new object and it is
    freed. *)
Definition new (c : class) (init : nat -> M unit) : M nat :=
  fun h =>
    let self := length h in
    match init self (h ++ [mk_object c []])%list with
    | (Return _, h') => (Return self, h')
    | (Raise e, h') => (Raise e, removelast h')
    end.

Declare Scope store_scope.
Notation "x <- c1 ;; c2" := (bind c1 (fun x => c2))
  (at level 61, c1 at next level, right associativity) : store_scope.
Notation "c1 ;; c2" := (bind c1 (fun _ => c2))
  (at level 61, right associativity) : store_scope.
Local Open Scope store_scope.

(** [InstantVector.__init__] *)
Definition InstantVector_init (self : nat) (metric : string)
  (params : option string) : M unit :=
  setattr self "metric" (AStr metric) ;;
  setattr self "params" (AStr (default "" params)).

(** [RangeVector.__init__] *)
Definition RangeVector_init (self : nat) (metric : string)
  (params lookback_window : option string) : M unit :=
  setattr self "metric" (AStr metric) ;;
  setattr self "params" (AStr (default "" params)) ;;
  setattr self "lookback_window" (AStr (default "2m" lookback_window)).

(** [HistogramQuantile.__init__] *)
Definition HistogramQuantile_init (self : nat) (quantile : number)
  (vector : nat) : M unit :=
  raise_if (lt_literal quantile 0 || gt_literal quantile 1)
    (ValueError "quantile should be between 0 and 1") ;;
  b <- isinstance vector C_InstantVector ;;
  raise_if (negb b) (TypeError "invalid vector type") ;;
  setattr self "quantile" (ANum quantile) ;;
  setattr self "vector" (ARef vector).

(** [Rate.__init__] *)
Definition Rate_init (self : nat) (vector : nat)
  (rate_function : option string) : M unit :=
  let rate_function := default "rate" rate_function in
  b <- isinstance vector C_RangeVector ;;
  raise_if (negb b) (TypeError "invalid vector type") ;;
  raise_if (negb (str_in rate_function Rate_.VALID_FUNCTIONS))
    (ValueError ("Rate function should be one of: "
                 ++ repr_list Rate_.VALID_FUNCTIONS)) ;;
  setattr self "rate_function" (AStr rate_function) ;;
  setattr self "vector" (ARef vector).

(** [Increase.__init__] and [Delta.__init__], which have the same body. *)
Definition Increase_init (self : nat) (vector : nat) : M unit :=
  b <- isinstance vector C_RangeVector ;;
  raise_if (negb b) (TypeError "invalid vector type") ;;
  setattr self "vector" (ARef vector).

Definition Delta_init (self : nat) (vector : nat) : M unit :=
  b <- isinstance vector C_RangeVector ;;
  raise_if (negb b) (TypeError "invalid vector type") ;;
  setattr self "vector" (ARef vector).

(** [Scalar.__init__] *)
Definition Scalar_init (self : nat) (vector : nat) : M unit :=
  b <- isinstance vector C_InstantVector ;;
  raise_if (negb b) (TypeError "invalid vector type") ;;
  setattr self "vector" (ARef vector).

(** [_Aggregation.__init__] *)
Definition Aggregation_init (self : nat) (operator : string) (vector : nat)
  (by_ without : option (list string)) : M unit :=
  b <- isinstance vector C_InstantVector ;;
  raise_if (negb b) (TypeError "invalid vector type") ;;
  raise_if (is_not_None by_ && is_not_None without)
    (ValueError "clause should be by or without, not both") ;;
  raise_if (negb (str_in operator Aggregation_.VALID_OPERATORS))
    (ValueError ("operator should be one of: "
                 ++ repr_list Aggregation_.VALID_OPERATORS)) ;;
  setattr self "dimension" (AStr "") ;;
  (if truthy by_
   then setattr self "dimension"
          (AStr (" by (" ++ join ", " (default [] by_) ++ ")"))
   else ret tt) ;;
  (if truthy without
   then setattr self "dimension"
          (AStr (" without (" ++ join ", " (default [] without) ++ ")"))
   else ret tt) ;;
  setattr self "vector" (ARef vector) ;;
  setattr self "operator" (AStr operator).

(** A constructor call with its arguments; [Call_other] creates an
    object of a class defined elsewhere, whose [str()] is [text]. *)
Inductive call : Type :=
| Call_InstantVector (metric : string) (params : option string)
| Call_RangeVector (metric : string) (params lookback_window : option string)
| Call_HistogramQuantile (quantile : number) (vector : nat)
| Call_Rate (vector : nat) (rate_function : option string)
| Call_Increase (vector : nat)
| Call_Delta (vector : nat)
| Call_Scalar (vector : nat)
| Call_Aggregation (operator : string) (vector : nat)
    (by_ without : option (list string))
| Call_Count (vector : nat) (by_ without : option (list string))
| Call_Sum (vector : nat) (by_ without : option (list string))
| Call_Max (vector : nat) (by_ without : option (list string))
| Call_Min (vector : nat) (by_ without : option (list string))
| Call_Avg (vector : nat) (by_ without : option (list string))
| Call_other (text : string).

(** The class instantiated by a call. *)
Definition class_of (c : call) : class :=
  match c with
  | Call_InstantVector _ _ => C_InstantVector
  | Call_RangeVector _ _ _ => C_RangeVector
  | Call_HistogramQuantile _ _ => C_HistogramQuantile
  | Call_Rate _ _ => C_Rate
  | Call_Increase _ => C_Increase
  | Call_Delta _ => C_Delta
  | Call_Scalar _ => C_Scalar
  | Call_Aggregation _ _ _ _ => C_Aggregation
  | Call_Count _ _ _ => C_Count
  | Call_Sum _ _ _ => C_Sum
  | Call_Max _ _ _ => C_Max
  | Call_Min _ _ _ => C_Min
  | Call_Avg _ _ _ => C_Avg
  | Call_other _ => C_other
  end.

(** The [__init__] a call runs on the new object. *)
Definition init (c : call) (self : nat) : M unit :=
  match c with
  | Call_InstantVector metric params => InstantVector_init self metric params
  | Call_RangeVector metric params lookback_window =>
      RangeVector_init self metric params lookback_window
  | Call_HistogramQuantile quantile vector =>
      HistogramQuantile_init self quantile vector
  | Call_Rate vector rate_function => Rate_init self vector rate_function
  | Call_Increase vector => Increase_init self vector
  | Call_Delta vector => Delta_init self vector
  | Call_Scalar vector => Scalar_init self vector
  | Call_Aggregation operator vector by_ without =>
      Aggregation_init self operator vector by_ without
  | Call_Count vector by_ without =>
      Aggregation_init self "count" vector by_ without
  | Call_Sum vector by_ without => Aggregation_init self "sum" vector by_ without
  | Call_Max vector by_ without => Aggregation_init self "max" vector by_ without
  | Call_Min vector by_ without => Aggregation_init self "min" vector by_ without
  | Call_Avg vector by_ without => Aggregation_init self "avg" vector by_ without
  | Call_other text => setattr self "text" (AStr text)
  end.

(** The constructor call. *)
Definition run (c : call) : M nat := new (class_of c) (init c).

(** The objects passed to a call exist. *)
Definition arguments_exist (c : call) (h : heap) : Prop :=
  match c with
  | Call_InstantVector _ _ | Call_RangeVector _ _ _ | Call_other _ => True
  | Call_HistogramQuantile _ vector
  | Call_Rate vector _
  | Call_Increase vector
  | Call_Delta vector
  | Call_Scalar vector
  | Call_Aggregation _ vector _ _
  | Call_Count vector _ _
  | Call_Sum vector _ _
  | Call_Max vector _ _
  | Call_Min vector _ _
  | Call_Avg vector _ _ => vector < length h
  end.

(** The heaps a program can build: any sequence of constructor calls on
    existing objects, whether they return or raise. *)
Inductive reachable : heap -> Prop :=
| reachable_empty : reachable []
| reachable_call (h h' : heap) (c : call) (r : result nat) :
    reachable h -> arguments_exist c h -> run c h = (r, h') -> reachable h'.

(** The outcome of rendering: the string, or the failure. *)
Inductive outcome : Type :=
| Done (s : string)
| AttributeError (name : string)
| Dangling
| RecursionError.

Section Rendering.

Variable float_repr : float -> string.

(** [f"{self.name}"] continued by [k]: the attribute is read and
    formatted, a referenced object by its own [__str__] ([rec]). *)
Definition format_attr (rec : nat -> outcome) (self : object) (name : string)
  (k : string -> outcome) : outcome :=
  match getattr (dict self) name with
  | None => AttributeError name
  | Some (AStr s) => k s
  | Some (ANum q) => k (str_number float_repr q)
  | Some (ARef r) =>
      match rec r with
      | Done s => k s
      | failure => failure
      end
  end.

(** The [__str__] found for the class of [self]. *)
Definition str_method (rec : nat -> outcome) (self : object) : outcome :=
  let fmt := format_attr rec self in
  match cls self with
  | C_InstantVector =>
      fmt "metric" (fun metric => fmt "params" (fun params =>
        Done (metric ++ params)))
  | C_RangeVector =>
      fmt "metric" (fun metric => fmt "params" (fun params =>
        fmt "lookback_window" (fun lookback_window =>
          Done (metric ++ params ++ "[" ++ lookback_window ++ "]"))))
  | C_HistogramQuantile =>
      fmt "quantile" (fun quantile => fmt "vector" (fun vector =>
        Done ("histogram_quantile(" ++ quantile ++ ", " ++ vector ++ ")")))
  | C_Rate =>
      fmt "rate_function" (fun rate_function => fmt "vector" (fun vector =>
        Done (rate_function ++ "(" ++ vector ++ ")")))
  | C_Increase => fmt "vector" (fun vector => Done ("increase(" ++ vector ++ ")"))
  | C_Delta => fmt "vector" (fun vector => Done ("delta(" ++ vector ++ ")"))
  | C_Scalar => fmt "vector" (fun vector => Done ("scalar(" ++ vector ++ ")"))
  | C_Aggregation | C_Count | C_Sum | C_Max | C_Min | C_Avg =>
      fmt "operator" (fun operator => fmt "vector" (fun vector =>
        fmt "dimension" (fun dimension =>
          Done (operator ++ "(" ++ vector ++ ")" ++ dimension))))
  | C_object | C_other => fmt "text" Done
  end.

(** [str(r)], to a nesting depth of [fuel]. *)
Fixpoint str (fuel : nat) (h : heap) (r : nat) : outcome :=
  match fuel with
  | O => RecursionError
  | S fuel' =>
      match nth_error h r with
      | None => Dangling
      | Some self => str_method (str fuel' h) self
      end
  end.

End Rendering.

(** The attributes the [__str__] of a class reads. *)
Definition attributes (c : class) : list string :=
  match c with
  | C_InstantVector => ["metric"; "params"]
  | C_RangeVector => ["metric"; "params"; "lookback_window"]
  | C_HistogramQuantile => ["quantile"; "vector"]
  | C_Rate => ["rate_function"; "vector"]
  | C_Increase | C_Delta | C_Scalar => ["vector"]
  | C_Aggregation | C_Count | C_Sum | C_Max | C_Min | C_Avg =>
      ["operator"; "vector"; "dimension"]
  | C_object | C_other => ["text"]
  end.

(** The object at index [i] is fully built: the attributes of its class
    are set and its references point to older objects. *)
Definition complete (i : nat) (o : object) : Prop :=
  (forall name, In name (attributes (cls o)) ->
     exists a, getattr (dict o) name = Some a) /\
  (forall name r, getattr (dict o) name = Some (ARef r) -> r < i).

(** Every object of the heap is fully built. *)
Definition well_formed (h : heap) : Prop :=
  forall i o, nth_error h i = Some o -> complete i o.

End Store.

(** ** The store and the trees

    An object of the store unfolds to a tree of [value], and a constructor
    call of the store stands for a constructor of the tree model. *)

(** The tree of an object, given the trees [rec] of the objects it
    refers to; nothing when an attribute is missing. *)
Definition value_of_object (rec : nat -> option value) (o : Store.object)
  : option value :=
  let get := Store.getattr (Store.dict o) in
  let aggregation a :=
    match get "operator", get "vector", get "dimension" with
    | Some (Store.AStr operator), Some (Store.ARef vector),
      Some (Store.AStr dimension) =>
        option_map (fun t => OAggregation a operator t dimension) (rec vector)
    | _, _, _ => None
    end in
  let function f :=
    match get "vector" with
    | Some (Store.ARef vector) => option_map f (rec vector)
    | _ => None
    end in
  match Store.cls o with
  | C_InstantVector =>
      match get "metric", get "params" with
      | Some (Store.AStr metric), Some (Store.AStr params) =>
          Some (OInstantVector metric params)
      | _, _ => None
      end
  | C_RangeVector =>
      match get "metric", get "params", get "lookback_window" with
      | Some (Store.AStr metric), Some (Store.AStr params),
        Some (Store.AStr lookback_window) =>
          Some (ORangeVector metric params lookback_window)
      | _, _, _ => None
      end
  | C_HistogramQuantile =>
      match get "quantile" with
      | Some (Store.ANum quantile) => function (OHistogramQuantile quantile)
      | _ => None
      end
  | C_Rate =>
      match get "rate_function" with
      | Some (Store.AStr rate_function) => function (ORate rate_function)
      | _ => None
      end
  | C_Increase => function OIncrease
  | C_Delta => function ODelta
  | C_Scalar => function OScalar
  | C_Aggregation => aggregation A_Aggregation
  | C_Count => aggregation A_Count
  | C_Sum => aggregation A_Sum
  | C_Max => aggregation A_Max
  | C_Min => aggregation A_Min
  | C_Avg => aggregation A_Avg
  | C_other =>
      match get "text" with
      | Some (Store.AStr text) => Some (OOther text)
      | _ => None
      end
  | C_object => None
  end.

(** The tree of the object at [r], to a nesting depth of [fuel]. *)
Fixpoint value_of (fuel : nat) (h : Store.heap) (r : nat) : option value :=
  match fuel with
  | O => None
  | S fuel' =>
      match nth_error h r with
      | None => None
      | Some o => value_of_object (value_of fuel' h) o
      end
  end.



(** ** Well-kinded expressions *)

(** The grouping suffix an aggregation stores: empty, or a [by] or
    [without] clause over a non-empty list of labels. *)
Definition is_dimension (d : string) : Prop :=
  d = "" \/
  exists x xs,
    d = " by (" ++ String.concat ", " (x :: xs) ++ ")" \/
    d = " without (" ++ String.concat ", " (x :: xs) ++ ")".

(** Every wrapper of the expression holds a vector of the kind it
    requires and parameters in their domain. *)
Fixpoint well_kinded (v : value) : Prop :=
  match v with
  | OInstantVector _ _ | ORangeVector _ _ _ | OOther _ => True
  | OHistogramQuantile quantile vector =>
      ~ out_of_range quantile /\ instant_capable vector /\ well_kinded vector
  | ORate rate_function vector =>
      (rate_function = "rate" \/ rate_function = "irate")
      /\ is_RangeVector vector /\ well_kinded vector
  | OIncrease vector | ODelta vector =>
      is_RangeVector vector /\ well_kinded vector
  | OScalar vector => instant_capable vector /\ well_kinded vector
  | OAggregation _ operator vector dimension =>
      In operator Aggregation_.VALID_OPERATORS
      /\ instant_capable vector /\ well_kinded vector
      /\ is_dimension dimension
  end.

(** ** The dashboard library

    The objects of [grafanalib] are built by its constructors from keyword
    arguments; an object is represented by the call that built it. *)

Module Grafanalib.

Local Unset Elimination Schemes.

(** The Python values passed to the library. *)
Inductive pyval : Type :=
| PNone
| PBool (b : bool)
| PInt (z : Z)
| PStr (s : string)
| PList (l : list pyval)
| PDict (d : list (string * pyval))
| PConst (name : string)
| PCall (callee : string) (kwargs : list (string * pyval))
| PMethod (self : pyval) (method : string).

Local Set Elimination Schemes.

(** [None] or a string. *)
Definition opt_str (o : option string) : pyval :=
  match o with
  | Some s => PStr s
  | None => PNone
  end.

(** [d.get(k)] on the items of a dict, in insertion order. *)
Fixpoint dict_get (d : list (string * pyval)) (k : string) : option pyval :=
  match d with
  | [] => None
  | (k', v) :: d' => if String.eqb k' k then Some v else dict_get d' k
  end.

(** The items of [d] after [d.setdefault(k, v)]. *)
Definition setdefault (d : list (string * pyval)) (k : string) (v : pyval)
  : list (string * pyval) :=
  match dict_get d k with
  | Some _ => d
  | None => (d ++ [(k, v)])%list
  end.

(** The keys of a dict. *)
Definition keys (d : list (string * pyval)) : list string := map fst d.

End Grafanalib.

Import Grafanalib.

Declare Scope bind_scope.
Notation "x <- c1 ;; c2" := (Py.bind c1 (fun x => c2))
  (at level 61, c1 at next level, right associativity) : bind_scope.
Local Open Scope bind_scope.

(** ** panels.py *)

Module Panels.

(** [graph(title, description, targets, yAxes, **params)] *)
Definition graph (title description : string) (targets : list pyval)
  (yAxes : pyval) (params : list (string * pyval)) : pyval :=
  let params := setdefault params "lineWidth" (PInt 1) in
  let params :=
    setdefault params "legend" (PCall "Legend" [("show", PBool false)]) in
  let params := setdefault params "transparent" (PBool true) in
  let params := setdefault params "nullPointMode" (PConst "NULL_CONNECTED") in
  let params := setdefault params "steppedLine" (PBool true) in
  PCall "Graph"
    ([("title", PStr title); ("description", PStr description);
      ("targets", PList targets); ("yAxes", yAxes)] ++ params)%list.

(** The keyword arguments [graph] names itself. *)
Definition named : list string := ["title"; "description"; "targets"; "yAxes"].

(** The defaults [graph] fills in. *)
Definition defaults : list (string * pyval) :=
  [("lineWidth", PInt 1);
   ("legend", PCall "Legend" [("show", PBool false)]);
   ("transparent", PBool true);
   ("nullPointMode", PConst "NULL_CONNECTED");
   ("steppedLine", PBool true)].

(** The keyword arguments a library object was built from. *)
Definition kwargs_of (v : pyval) : list (string * pyval) :=
  match v with
  | PCall _ kwargs => kwargs
  | _ => []
  end.

End Panels.

(** ** core.py *)

Module Core.

(** [DEFAULT_PERCENTILES = [0.5, 0.90, 0.95, 0.99, 1.00]]; the literals
    that are not binary fractions are written as the floats they denote. *)
Definition DEFAULT_PERCENTILES : list number :=
  [PyFloat 0.5%float;
   PyFloat 0x1.ccccccccccccdp-1%float;
   PyFloat 0x1.e666666666666p-1%float;
   PyFloat 0x1.fae147ae147aep-1%float;
   PyFloat 1%float].

Definition DEFAULT_LOOKBACK_WINDOW : string := "$lookback_window".

(** [template(metric, display_name, metric_label, params={}, multi=False,
    default_value=None, include_all=False, all_value=None, regex=None,
    hide=False, sort=SORT_ALPHA_IGNORE_CASE_ASC)]; an argument with a
    default is [None] when the caller leaves it out. *)
Definition template (metric display_name metric_label : string)
  (params : option (list (string * string))) (multi : option bool)
  (default_value : option string) (include_all : option bool)
  (all_value regex : option string) (hide : option bool)
  (sort : option pyval) : pyval :=
  let params := default [] params in
  let template_params :=
    match params with
    | [] => ""
    | _ :: _ => format_params params
    end in
  PCall "Template"
    [("name", PStr display_name);
     ("label", PStr display_name);
     ("default", opt_str default_value);
     ("includeAll", PBool (default false include_all));
     ("allValue", opt_str all_value);
     ("multi", PBool (default false multi));
     ("regex", opt_str regex);
     ("query", PStr ("label_values(" ++ metric ++ template_params ++ ", "
                     ++ metric_label ++ ")"));
     ("hide", if default false hide then PConst "HIDE_LABEL" else PConst "SHOW");
     ("sort", default (PConst "SORT_ALPHA_IGNORE_CASE_ASC") sort)].

(** [templating(metric="", include_deployment=False,
    additional_templates=[], lookback_window_values=[...],
    lookback_window_default="2m", include_namespace=False,
    include_pod=False, namespace_label='kubernetes_namespace')] *)
Definition templating (metric : option string)
  (include_deployment : option bool) (additional_templates : option (list pyval))
  (lookback_window_values : option (list string))
  (lookback_window_default : option string)
  (include_namespace include_pod : option bool)
  (namespace_label : option string) : result pyval :=
  let metric := default "" metric in
  let include_deployment := default false include_deployment in
  let additional_templates := default [] additional_templates in
  let lookback_window_values :=
    default ["2m"; "5m"; "10m"; "30m"; "1h"; "3h"; "6h"; "1d"; "1w"]
      lookback_window_values in
  let lookback_window_default := default "2m" lookback_window_default in
  let include_namespace := default false include_namespace in
  let include_pod := default false include_pod in
  let namespace_label := default "kubernetes_namespace" namespace_label in
  let default_templates :=
    [PCall "Template"
       [("name", PStr "lookback_window");
        ("label", PStr "Lookback Window");
        ("default", PStr lookback_window_default);
        ("type", PStr "custom");
        ("query", PStr (join "," lookback_window_values));
        ("sort", PConst "SORT_ALPHA_IGNORE_CASE_ASC")]] in
  let default_templates :=
    if include_namespace
    then (default_templates ++
          [PCall "Template"
             [("name", PStr "namespace");
              ("label", PStr "Namespace");
              ("query", PStr ("label_values(" ++ metric ++ "{}," ++
                              namespace_label ++ ")"));
              ("sort", PConst "SORT_ALPHA_IGNORE_CASE_ASC");
              ("default", PStr "default")]])%list
    else default_templates in
  raise_if (include_deployment && include_pod)
    (ValueError "cannot include both deployment and pod") ;;
  let default_templates :=
    if include_deployment
    then
      let params :=
        if include_namespace then [(namespace_label, "~[[namespace]]")]
        else [] in
      (default_templates ++
       [template metric "deployment" "kubernetes_name" (Some params)
          (Some true) None (Some true) (Some ".*") None None None])%list
    else default_templates in
  let default_templates :=
    if include_pod
    then
      let params :=
        if include_namespace then [(namespace_label, "~[[namespace]]")]
        else [] in
      (default_templates ++
       [template metric "deployment" "pod" (Some params) None None None None
          (Some "^(.*)-(?:[a-z0-9]+-[a-z0-9]+$|[0-9]?$)") None None])%list
    else default_templates in
  Return (PCall "Templating"
            [("list", PList (default_templates ++ additional_templates)%list)]).

(** The [name] a template was built with. *)
Definition template_name (t : pyval) : option pyval :=
  dict_get (Panels.kwargs_of t) "name".

End Core.

(** ** deployment.py *)

Module Deployment.

Section Rows.

Variable float_repr : float -> string.

(** The [seriesOverrides] of the CPU and memory panels. *)
Definition request_limit_overrides : pyval :=
  PList
    [PDict [("alias", PStr "request"); ("dashes", PBool true);
            ("linewidth", PInt 2); ("color", PConst "GREEN")];
     PDict [("alias", PStr "limit"); ("dashes", PBool true);
            ("linewidth", PInt 2); ("color", PConst "RED")]].

(** [information_row(rate_fn="rate",
    lookback_window=DEFAULT_LOOKBACK_WINDOW,
    deployment_name="[[deployment]]", title="Deployment Information")] *)
Definition information_row
  (rate_fn lookback_window deployment_name title : option string)
  : result pyval :=
  let rate_fn := default "rate" rate_fn in
  let lookback_window := default Core.DEFAULT_LOOKBACK_WINDOW lookback_window in
  let deployment_name := default "[[deployment]]" deployment_name in
  let title := default "Deployment Information" title in
  let params :=
    format_params
      [("pod", "~" ++ deployment_name ++ "-[a-z0-9]+[-]?[a-z0-9]*$");
       ("container", "!")] in
  rate <- Rate (RangeVector "container_cpu_usage_seconds_total"
                  (Some params) (Some lookback_window)) (Some rate_fn) ;;
  cpu_usage <- Sum rate (Some ["pod"]) None ;;
  let cpu_params :=
    format_params
      [("pod", "~" ++ deployment_name ++ "-[a-z0-9]+[-]?[a-z0-9]*$");
       ("container", "!");
       ("resource", "cpu")] in
  cpu_requests <-
    Min (InstantVector "kube_pod_container_resource_requests" (Some cpu_params))
      None None ;;
  cpu_limits <-
    Min (InstantVector "kube_pod_container_resource_limits" (Some cpu_params))
      None None ;;
  memory_usage <-
    Sum (InstantVector "container_memory_working_set_bytes" (Some params))
      (Some ["pod"]) None ;;
  let mem_params :=
    format_params
      [("pod", "~" ++ deployment_name ++ "-[a-z0-9]+[-]?[a-z0-9]*$");
       ("container", "!");
       ("resource", "memory")] in
  memory_requests <-
    Min (InstantVector "kube_pod_container_resource_requests" (Some mem_params))
      None None ;;
  memory_limits <-
    Min (InstantVector "kube_pod_container_resource_limits" (Some mem_params))
      None None ;;
  let params := format_params [("pod", "~" ++ deployment_name ++ ".*")] in
  pod_status <-
    Sum (InstantVector "kube_pod_status_phase" (Some params))
      (Some ["phase"]) None ;;
  Return
    (PCall "Row"
       [("title", PStr title);
        ("panels",
         PList
           [Panels.graph ("CPU Usage [" ++ lookback_window ++ "]")
              "CPU usage of the deployment."
              [PCall "Target" [("expr", PStr (str float_repr cpu_usage));
                               ("legendFormat", PStr "{{pod}}")];
               PCall "Target" [("expr", PStr (str float_repr cpu_requests));
                               ("legendFormat", PStr "request")];
               PCall "Target" [("expr", PStr (str float_repr cpu_limits));
                               ("legendFormat", PStr "limit")]]
              (PCall "YAxes"
                 [("left", PCall "YAxis" [("label", PStr "CPU cores");
                                          ("format", PStr "short")])])
              [("seriesOverrides", request_limit_overrides);
               ("tooltip", PCall "Tooltip" [("sort", PInt 2)])];
            Panels.graph "Memory Usage" "Memory usage of the deployment."
              [PCall "Target" [("expr", PStr (str float_repr memory_usage));
                               ("legendFormat", PStr "{{pod}}")];
               PCall "Target" [("expr", PStr (str float_repr memory_requests));
                               ("legendFormat", PStr "request")];
               PCall "Target" [("expr", PStr (str float_repr memory_limits));
                               ("legendFormat", PStr "limit")]]
              (PCall "YAxes"
                 [("left", PCall "YAxis" [("label", PStr "RAM");
                                          ("format", PStr "bytes")])])
              [("seriesOverrides", request_limit_overrides);
               ("tooltip", PCall "Tooltip" [("sort", PInt 2)])];
            Panels.graph "Pod Status"
              "Shows the status of the various replicas of this deployment."
              [PCall "Target" [("expr", PStr (str float_repr pod_status));
                               ("legendFormat", PStr "{{phase}}")]]
              (PCall "YAxes"
                 [("left", PCall "YAxis" [("label", PStr "pods");
                                          ("format", PStr "short");
                                          ("decimals", PInt 0)])])
              []])]).

End Rows.

End Deployment.

(** ** Reading a row back *)

(** The [expr] of a target. *)
Definition target_expr (t : pyval) : list string :=
  match dict_get (Panels.kwargs_of t) "expr" with
  | Some (PStr e) => [e]
  | _ => []
  end.

(** The query expressions of a panel, in the order of its targets. *)
Definition panel_exprs (p : pyval) : list string :=
  match dict_get (Panels.kwargs_of p) "targets" with
  | Some (PList ts) => flat_map target_expr ts
  | _ => []
  end.

(** The query expressions of a row, panel by panel. *)
Definition row_exprs (r : pyval) : list (list string) :=
  match dict_get (Panels.kwargs_of r) "panels" with
  | Some (PList ps) => map panel_exprs ps
  | _ => []
  end.

(** The panels of a row. *)
Definition row_panels (r : pyval) : list pyval :=
  match dict_get (Panels.kwargs_of r) "panels" with
  | Some (PList ps) => ps
  | _ => []
  end.

(** ** grpc.py *)

Module Grpc.

(** A list comprehension whose element expression may raise: the elements
    are built in order and the first exception ends it. *)
Fixpoint comprehension {A B : Type} (f : A -> result B) (l : list A)
  : result (list B) :=
  match l with
  | [] => Return []
  | x :: l' =>
      y <- f x ;;
      ys <- comprehension f l' ;;
      Return (y :: ys)
  end.

(** [server_row_template(server_deployment_name)] *)
Definition server_row_template (server_deployment_name : string) : pyval :=
  Core.template "grpc_server_handled_total" "grpc_method" "grpc_method"
    (Some [("kubernetes_name", server_deployment_name)])
    None None (Some true) (Some ".*") None None None.

(** [client_row_template(grpc_service)] *)
Definition client_row_template (grpc_service : string) : pyval :=
  Core.template "grpc_client_handled_total" "grpc_client" "kubernetes_name"
    (Some [("grpc_service", grpc_service); ("grpc_method", "~$grpc_method")])
    None None (Some true) (Some ".*") None None None.

Section Rows.

Variable float_repr : float -> string.

(** ["%.1f%%ile" % (percentile * 100)], the legend of a quantile; float
    formatting is not defined by this repository. *)
Variable percentile_legend : number -> string.

(** The targets of a processing-time panel: one quantile of
    [processing_time] for each percentile. *)
Definition quantile_targets (processing_time : value) (percentiles : list number)
  : result (list pyval) :=
  comprehension
    (fun percentile =>
       quantile <- HistogramQuantile percentile processing_time ;;
       Return (PCall "Target"
                 [("expr", PStr (str float_repr quantile));
                  ("legendFormat", PStr (percentile_legend percentile))]))
    percentiles.

(** [server_row(server_deployment_name, rate_fn="rate",
    lookback_window=DEFAULT_LOOKBACK_WINDOW,
    percentiles=DEFAULT_PERCENTILES)] *)
Definition server_row (server_deployment_name : string)
  (rate_fn lookback_window : option string)
  (percentiles : option (list number)) : result pyval :=
  let rate_fn := default "rate" rate_fn in
  let lookback_window := default Core.DEFAULT_LOOKBACK_WINDOW lookback_window in
  let percentiles := default Core.DEFAULT_PERCENTILES percentiles in
  let params :=
    format_params
      [("kubernetes_name", server_deployment_name);
       ("grpc_method", "~$grpc_method")] in
  rate <- Rate (RangeVector "grpc_server_handled_total"
                  (Some params) (Some lookback_window)) (Some rate_fn) ;;
  rps <- Sum rate (Some ["grpc_method"]) None ;;
  rate <- Rate (RangeVector "grpc_server_handling_seconds_bucket"
                  (Some params) (Some lookback_window)) (Some rate_fn) ;;
  processing_time <- Sum rate (Some ["le"]) None ;;
  let params1 :=
    format_params
      [("kubernetes_name", server_deployment_name);
       ("grpc_method", "~$grpc_method");
       ("grpc_code", "!OK")] in
  let params2 :=
    format_params
      [("kubernetes_name", server_deployment_name);
       ("grpc_method", "~$grpc_method")] in
  grpc_handled <-
    Rate (RangeVector "grpc_server_handled_total"
            (Some params1) (Some lookback_window)) (Some rate_fn) ;;
  grpc_started <-
    Rate (RangeVector "grpc_server_started_total"
            (Some params2) (Some lookback_window)) (Some rate_fn) ;;
  grpc_handled_by_method <- Sum grpc_handled (Some ["grpc_method"]) None ;;
  grpc_started_by_method <- Sum grpc_started (Some ["grpc_method"]) None ;;
  grpc_handled_by_method_and_code <-
    Sum grpc_handled (Some ["grpc_method"; "grpc_code"]) None ;;
  let rps_panel :=
    Panels.graph ("RPS [" ++ lookback_window ++ "]")
      "Requests/s as perceived by the server."
      [PCall "Target" [("expr", PStr (str float_repr rps));
                       ("legendFormat", PStr "{{grpc_method}}")]]
      (PCall "YAxes"
         [("left", PCall "YAxis" [("label", PStr "requests/s");
                                  ("format", PStr "short")])])
      [("span", PInt 6);
       ("legend", PCall "Legend" [("show", PBool true);
                                  ("hideZero", PBool true)])] in
  targets <- quantile_targets processing_time percentiles ;;
  Return
    (PCall "Row"
       [("title", PStr ("gRPC Server (" ++ server_deployment_name ++ ")"));
        ("panels",
         PList
           [rps_panel;
            Panels.graph ("Processing time [" ++ lookback_window ++ "]")
              "Quantile distribution of RPC processing time as perceived by the server."
              targets
              (PCall "YAxes"
                 [("left", PCall "YAxis" [("label", PStr "duration");
                                          ("format", PStr "s")])])
              [("span", PInt 6);
               ("legend", PCall "Legend" [("show", PBool false);
                                          ("hideZero", PBool true)])];
            Panels.graph
              ("Request error percentage by method [" ++ lookback_window ++ "]")
              "Error percentage breakdown by method as perceived by the server. i.e. 30% for method A means method A failed 30% of all requests during that window."
              [PCall "Target"
                 [("expr", PStr (str float_repr grpc_handled_by_method ++ "/"
                                 ++ str float_repr grpc_started_by_method
                                 ++ "*100"));
                  ("legendFormat", PStr "{{grpc_method}}")]]
              (PCall "YAxes"
                 [("left", PCall "YAxis" [("label", PStr "% of requests");
                                          ("format", PStr "percent")])])
              [("span", PInt 6);
               ("legend", PCall "Legend" [("show", PBool true);
                                          ("hideZero", PBool true)])];
            Panels.graph
              ("Request error percentage breakdown by (method, code) ["
               ++ lookback_window ++ "]")
              "Error percentage breakdown by method and code as perceived by the server. i.e. 30% for method A and code NotFound means method A failed 30% of all requests with error code NotFound durnig that window."
              [PCall "Target"
                 [("expr", PStr (str float_repr grpc_handled_by_method_and_code
                                 ++ "/ignoring(grpc_code)group_left "
                                 ++ str float_repr grpc_started_by_method
                                 ++ "*100"));
                  ("legendFormat", PStr "{{grpc_method}}[{{grpc_code}}]")]]
              (PCall "YAxes"
                 [("left", PCall "YAxis" [("label", PStr "% of requests");
                                          ("format", PStr "percent")])])
              [("span", PInt 6);
               ("legend", PCall "Legend" [("show", PBool true);
                                          ("hideZero", PBool true)])]])]).

(** [client_row(grpc_service, rate_fn="rate",
    lookback_window=DEFAULT_LOOKBACK_WINDOW,
    percentiles=DEFAULT_PERCENTILES)] *)
Definition client_row (grpc_service : string)
  (rate_fn lookback_window : option string)
  (percentiles : option (list number)) : result pyval :=
  let rate_fn := default "rate" rate_fn in
  let lookback_window := default Core.DEFAULT_LOOKBACK_WINDOW lookback_window in
  let percentiles := default Core.DEFAULT_PERCENTILES percentiles in
  let params :=
    format_params
      [("grpc_service", grpc_service);
       ("grpc_method", "~$grpc_method");
       ("kubernetes_name", "~$grpc_client")] in
  rate <- Rate (RangeVector "grpc_client_handled_total"
                  (Some params) (Some lookback_window)) (Some rate_fn) ;;
  rps <- Sum rate (Some ["grpc_method"]) None ;;
  rate <- Rate (RangeVector "grpc_client_handling_seconds_bucket"
                  (Some params) (Some lookback_window)) (Some rate_fn) ;;
  processing_time <- Sum rate (Some ["le"]) None ;;
  let rps_panel :=
    Panels.graph ("RPS [" ++ lookback_window ++ "]")
      "Requests/s as perceived by client(s)."
      [PCall "Target" [("expr", PStr (str float_repr rps));
                       ("legendFormat", PStr "{{grpc_method}}")]]
      (PCall "YAxes"
         [("left", PCall "YAxis" [("label", PStr "requests/s");
                                  ("format", PStr "short")])])
      [("span", PInt 6);
       ("legend", PCall "Legend" [("show", PBool true);
                                  ("hideZero", PBool true)])] in
  targets <- quantile_targets processing_time percentiles ;;
  Return
    (PCall "Row"
       [("title", PStr "Client Side Metrics");
        ("panels",
         PList
           [rps_panel;
            Panels.graph ("Processing time [" ++ lookback_window ++ "]")
              "Quantile distribution of RPC processing time as perceived by the client(s)."
              targets
              (PCall "YAxes"
                 [("left", PCall "YAxis" [("label", PStr "duration");
                                          ("format", PStr "s")])])
              [("span", PInt 6);
               ("legend", PCall "Legend" [("show", PBool false);
                                          ("hideZero", PBool true)])]])]).

(** [new_dashboard(title, server_deployment_name, grpc_service,
    description="", lookback_window=DEFAULT_LOOKBACK_WINDOW, rate_fn="rate",
    percentiles=DEFAULT_PERCENTILES, tags=[], additional_templates=[],
    additional_rows=[], shared_crosshair=False)] *)
Definition new_dashboard (title server_deployment_name grpc_service : string)
  (description lookback_window rate_fn : option string)
  (percentiles : option (list number))
  (tags additional_templates additional_rows : option (list pyval))
  (shared_crosshair : option bool) : result pyval :=
  let description := default "" description in
  let lookback_window := default Core.DEFAULT_LOOKBACK_WINDOW lookback_window in
  let rate_fn := default "rate" rate_fn in
  let percentiles := default Core.DEFAULT_PERCENTILES percentiles in
  let tags := default [] tags in
  let additional_templates := default [] additional_templates in
  let additional_rows := default [] additional_rows in
  let shared_crosshair := default false shared_crosshair in
  templates <-
    Core.templating (Some "grpc_server_handled_total") None
      (Some ([server_row_template server_deployment_name;
              client_row_template grpc_service] ++ additional_templates)%list)
      None None None None None ;;
  server <-
    server_row server_deployment_name (Some rate_fn) (Some lookback_window)
      (Some percentiles) ;;
  client <-
    client_row grpc_service (Some rate_fn) (Some lookback_window)
      (Some percentiles) ;;
  information <-
    Deployment.information_row float_repr None (Some lookback_window)
      (Some server_deployment_name) None ;;
  Return
    (PMethod
       (PCall "Dashboard"
          [("title", PStr title);
           ("description", PStr description);
           ("tags", PList tags);
           ("sharedCrosshair", PBool shared_crosshair);
           ("templating", templates);
           ("refresh", PStr "2m");
           ("rows", PList ([server; client; information] ++ additional_rows)%list)])
       "auto_panel_ids").

End Rows.

End Grpc.

(** The templates of a dashboard. *)
Definition dashboard_templates (d : pyval) : list pyval :=
  match d with
  | PMethod self _ =>
      match dict_get (Panels.kwargs_of self) "templating" with
      | Some (PCall _ [(_, PList templates)]) => templates
      | _ => []
      end
  | _ => []
  end.

(** The rows of a dashboard. *)
Definition dashboard_rows (d : pyval) : list pyval :=
  match d with
  | PMethod self _ =>
      match dict_get (Panels.kwargs_of self) "rows" with
      | Some (PList rows) => rows
      | _ => []
      end
  | _ => []
  end.

(** * Properties *)

Lemma format_param_clause_spec (k v : string) :
  format_param k v = clause_spec k v.
Proof.
  destruct v as [|a r]; [reflexivity|].
  destruct a as [[] [] [] [] [] [] [] []]; try reflexivity.
  all: destruct r as [|b r]; [reflexivity|].
  all: destruct b as [[] [] [] [] [] [] [] []]; try reflexivity.
  all: destruct r; reflexivity.
Qed.

(** C5: for every ordered mapping of labels to constraints the formatter
    returns the braces around the comma-space-joined clauses, in input
    order, each clause chosen by the prefix of its constraint; the mapping
    [{"a": "~b"}] gives [{a=~"b"}] and the empty mapping gives [{}]. *)
Theorem format_params_selector_spec :
  (forall params, format_params params = selector_spec params) /\
  format_params [("a", "~b")] = "{a=~" ++ dquote ++ "b" ++ dquote ++ "}" /\
  format_params [] = "{}".
Proof.
  split; [|split; reflexivity].
  intros params. unfold format_params, selector_spec, join.
  do 3 f_equal. apply map_ext. intros [k v]. apply format_param_clause_spec.
Qed.

(** ** Capabilities *)

Lemma isinstance_RangeVector_iff (v : value) :
  isinstance v C_RangeVector = true <-> is_RangeVector v.
Proof.
  destruct v as [| | | | | | |[]| ]; cbn; intuition discriminate.
Qed.

Lemma isinstance_InstantVector_iff (v : value) :
  isinstance v C_InstantVector = true <-> instant_capable v.
Proof.
  destruct v as [| | | | | | |[]| ]; cbn; intuition discriminate.
Qed.

Lemma not_isinstance_RangeVector (v : value) :
  isinstance v C_RangeVector = false <-> ~ is_RangeVector v.
Proof.
  rewrite <- isinstance_RangeVector_iff.
  destruct (isinstance v C_RangeVector); intuition congruence.
Qed.

Lemma not_isinstance_InstantVector (v : value) :
  isinstance v C_InstantVector = false <-> ~ instant_capable v.
Proof.
  rewrite <- isinstance_InstantVector_iff.
  destruct (isinstance v C_InstantVector); intuition congruence.
Qed.

Lemma instant_capable_not_RangeVector (v : value) :
  instant_capable v -> ~ is_RangeVector v.
Proof. destruct v; cbn; tauto. Qed.

Lemma RangeVector_not_instant_capable (v : value) :
  is_RangeVector v -> ~ instant_capable v.
Proof. destruct v; cbn; tauto. Qed.

Lemma quantile_check_iff (q : number) :
  lt_literal q 0 || gt_literal q 1 = true <-> out_of_range q.
Proof.
  rewrite orb_true_iff. destruct q as [z|f]; cbn.
  - rewrite !Z.ltb_lt. tauto.
  - tauto.
Qed.

Lemma quantile_check_false (q : number) :
  lt_literal q 0 || gt_literal q 1 = false <-> ~ out_of_range q.
Proof.
  rewrite <- quantile_check_iff.
  destruct (lt_literal q 0 || gt_literal q 1); intuition congruence.
Qed.

Lemma supplied_iff (by_ without : option (list string)) :
  is_not_None by_ && is_not_None without = true
  <-> supplied by_ /\ supplied without.
Proof.
  unfold supplied.
  destruct by_, without; cbn; intuition congruence.
Qed.

(** ** The outcome of each constructor *)

Lemma Rate_RangeVector (v : value) (f : option string) :
  is_RangeVector v ->
  Rate v f =
    if str_in (default "rate" f) Rate_.VALID_FUNCTIONS
    then Return (ORate (default "rate" f) v)
    else Raise (ValueError "Rate function should be one of: ['rate', 'irate']").
Proof.
  intros Hv. apply isinstance_RangeVector_iff in Hv.
  unfold Rate. rewrite Hv. cbn [negb raise_if bind].
  destruct (str_in _ _); reflexivity.
Qed.

Lemma Rate_not_RangeVector (v : value) (f : option string) :
  ~ is_RangeVector v -> Rate v f = Raise (TypeError "invalid vector type").
Proof.
  intros Hv. apply not_isinstance_RangeVector in Hv.
  unfold Rate. rewrite Hv. reflexivity.
Qed.

Lemma Increase_outcome (v : value) :
  (is_RangeVector v -> Increase v = Return (OIncrease v)) /\
  (~ is_RangeVector v -> Increase v = Raise (TypeError "invalid vector type")).
Proof.
  unfold Increase. split; intros Hv.
  - apply isinstance_RangeVector_iff in Hv. rewrite Hv. reflexivity.
  - apply not_isinstance_RangeVector in Hv. rewrite Hv. reflexivity.
Qed.

Lemma Delta_outcome (v : value) :
  (is_RangeVector v -> Delta v = Return (ODelta v)) /\
  (~ is_RangeVector v -> Delta v = Raise (TypeError "invalid vector type")).
Proof.
  unfold Delta. split; intros Hv.
  - apply isinstance_RangeVector_iff in Hv. rewrite Hv. reflexivity.
  - apply not_isinstance_RangeVector in Hv. rewrite Hv. reflexivity.
Qed.

Lemma Scalar_outcome (v : value) :
  (instant_capable v -> Scalar v = Return (OScalar v)) /\
  (~ instant_capable v -> Scalar v = Raise (TypeError "invalid vector type")).
Proof.
  unfold Scalar. split; intros Hv.
  - apply isinstance_InstantVector_iff in Hv. rewrite Hv. reflexivity.
  - apply not_isinstance_InstantVector in Hv. rewrite Hv. reflexivity.
Qed.

Lemma HistogramQuantile_out_of_range (q : number) (v : value) :
  out_of_range q ->
  HistogramQuantile q v = Raise (ValueError "quantile should be between 0 and 1").
Proof.
  intros Hq. apply quantile_check_iff in Hq.
  unfold HistogramQuantile. rewrite Hq. reflexivity.
Qed.

Lemma HistogramQuantile_in_range (q : number) (v : value) :
  ~ out_of_range q ->
  (instant_capable v -> HistogramQuantile q v = Return (OHistogramQuantile q v)) /\
  (~ instant_capable v ->
   HistogramQuantile q v = Raise (TypeError "invalid vector type")).
Proof.
  intros Hq. apply quantile_check_false in Hq.
  unfold HistogramQuantile. rewrite Hq. cbn [raise_if bind].
  split; intros Hv.
  - apply isinstance_InstantVector_iff in Hv. rewrite Hv. reflexivity.
  - apply not_isinstance_InstantVector in Hv. rewrite Hv. reflexivity.
Qed.

Lemma Aggregation_not_instant (cls : agg_class) (op : string) (v : value)
  (by_ without : option (list string)) :
  ~ instant_capable v ->
  Aggregation_init cls op v by_ without = Raise (TypeError "invalid vector type").
Proof.
  intros Hv. apply not_isinstance_InstantVector in Hv.
  unfold Aggregation_init. rewrite Hv. reflexivity.
Qed.

Lemma Aggregation_both (cls : agg_class) (op : string) (v : value)
  (by_ without : option (list string)) :
  instant_capable v -> supplied by_ -> supplied without ->
  Aggregation_init cls op v by_ without =
    Raise (ValueError "clause should be by or without, not both").
Proof.
  intros Hv Hb Hw. apply isinstance_InstantVector_iff in Hv.
  unfold Aggregation_init. rewrite Hv.
  rewrite (proj2 (supplied_iff by_ without) (conj Hb Hw)). reflexivity.
Qed.

Lemma Aggregation_not_both (cls : agg_class) (op : string) (v : value)
  (by_ without : option (list string)) :
  instant_capable v -> ~ (supplied by_ /\ supplied without) ->
  Aggregation_init cls op v by_ without =
    if str_in op Aggregation_.VALID_OPERATORS
    then Return (OAggregation cls op v
                   (if truthy without
                    then " without (" ++ join ", " (labels without) ++ ")"
                    else if truthy by_
                         then " by (" ++ join ", " (labels by_) ++ ")"
                         else ""))
    else Raise (ValueError
                  "operator should be one of: ['sum', 'min', 'max', 'avg', 'count']").
Proof.
  intros Hv Hn. apply isinstance_InstantVector_iff in Hv.
  unfold Aggregation_init. rewrite Hv.
  rewrite <- supplied_iff in Hn.
  destruct (is_not_None by_ && is_not_None without); [congruence|].
  cbn [negb raise_if bind].
  destruct (str_in op _); [|reflexivity].
  destruct by_, without; reflexivity.
Qed.

Lemma Aggregation_no_TypeError (cls : agg_class) (op : string) (v : value)
  (by_ without : option (list string)) :
  instant_capable v ->
  raises_TypeError (Aggregation_init cls op v by_ without) = false.
Proof.
  intros H. unfold Aggregation_init. apply isinstance_InstantVector_iff in H.
  rewrite H. cbn [negb raise_if bind].
  destruct (is_not_None by_ && is_not_None without); [reflexivity|].
  cbn [raise_if bind]. destruct (str_in op _); reflexivity.
Qed.

Lemma HistogramQuantile_no_TypeError (q : number) (v : value) :
  instant_capable v -> raises_TypeError (HistogramQuantile q v) = false.
Proof.
  intros H. unfold HistogramQuantile. apply isinstance_InstantVector_iff in H.
  destruct (lt_literal q 0 || gt_literal q 1); [reflexivity|].
  cbn [raise_if bind]. rewrite H. reflexivity.
Qed.

(** ** Default labels *)

(** C1: [format_params] has one behaviour, it adds no label of its own:
    on the empty mapping it returns [{}], and an instant vector of metric
    [m] built from it renders as [m] followed by [{}], where the tests of
    the module expect the cluster and namespace constraints. *)
Theorem format_params_empty_adds_no_label
  (float_repr : float -> string) (m : string) :
  format_params [] = "{}" /\
  str float_repr (InstantVector m (Some (format_params []))) = m ++ "{}" /\
  format_params [] <>
    "{kubernetes_cluster=" ++ dquote ++ "$cluster" ++ dquote
    ++ ", kubernetes_namespace=" ++ dquote ++ "$namespace" ++ dquote ++ "}".
Proof.
  split; [reflexivity|]. split; [reflexivity|].
  cbn. discriminate.
Qed.

(** ** Kind checks *)

(** C2, as the code has it: [Rate], [Increase] and [Delta] raise
    [TypeError] exactly when the vector is not a range vector, so every
    InstantVector-capable input is rejected; [Scalar] and the aggregations
    raise [TypeError] on a range vector; [HistogramQuantile] raises
    [TypeError] on a range vector when its quantile is within the
    interval, and the [ValueError] of the quantile otherwise; none of the
    three raises [TypeError] on an InstantVector-capable input. *)
Theorem vector_kind_checks
  (v : value) (f : option string) (q : number)
  (cls : agg_class) (op : string) (by_ without : option (list string)) :
  (Rate v f = Raise (TypeError "invalid vector type") <-> ~ is_RangeVector v) /\
  (raises_TypeError (Rate v f) = true <-> ~ is_RangeVector v) /\
  (raises_TypeError (Increase v) = true <-> ~ is_RangeVector v) /\
  (raises_TypeError (Delta v) = true <-> ~ is_RangeVector v) /\
  (instant_capable v ->
   raises_TypeError (Rate v f) = true /\
   raises_TypeError (Increase v) = true /\
   raises_TypeError (Delta v) = true) /\
  (is_RangeVector v ->
   raises_TypeError (Scalar v) = true /\
   raises_TypeError (Aggregation_init cls op v by_ without) = true /\
   (~ out_of_range q -> raises_TypeError (HistogramQuantile q v) = true) /\
   (out_of_range q ->
    HistogramQuantile q v =
      Raise (ValueError "quantile should be between 0 and 1"))) /\
  (instant_capable v ->
   raises_TypeError (Scalar v) = false /\
   raises_TypeError (Aggregation_init cls op v by_ without) = false /\
   raises_TypeError (HistogramQuantile q v) = false).
Proof.
  assert (HR : forall g, raises_TypeError (Rate v g) = true <-> ~ is_RangeVector v).
  { intros g. split.
    - intros H Hv. rewrite (Rate_RangeVector v g Hv) in H.
      destruct (str_in _ _); discriminate.
    - intros Hv. rewrite (Rate_not_RangeVector v g Hv). reflexivity. }
  assert (HI : raises_TypeError (Increase v) = true <-> ~ is_RangeVector v).
  { split.
    - intros H Hv. rewrite (proj1 (Increase_outcome v) Hv) in H. discriminate.
    - intros Hv. rewrite (proj2 (Increase_outcome v) Hv). reflexivity. }
  assert (HD : raises_TypeError (Delta v) = true <-> ~ is_RangeVector v).
  { split.
    - intros H Hv. rewrite (proj1 (Delta_outcome v) Hv) in H. discriminate.
    - intros Hv. rewrite (proj2 (Delta_outcome v) Hv). reflexivity. }
  repeat split.
  - intros H Hv. rewrite (Rate_RangeVector v f Hv) in H.
    destruct (str_in _ _); discriminate.
  - apply Rate_not_RangeVector.
  - apply HR.
  - apply HR.
  - apply HI.
  - apply HI.
  - apply HD.
  - apply HD.
  - apply HR. now apply instant_capable_not_RangeVector.
  - apply HI. now apply instant_capable_not_RangeVector.
  - apply HD. now apply instant_capable_not_RangeVector.
  - apply RangeVector_not_instant_capable in H.
    rewrite (proj2 (Scalar_outcome v) H). reflexivity.
  - apply RangeVector_not_instant_capable in H.
    rewrite (Aggregation_not_instant cls op v by_ without H). reflexivity.
  - intros Hq. apply RangeVector_not_instant_capable in H.
    rewrite (proj2 (HistogramQuantile_in_range q v Hq) H). reflexivity.
  - apply HistogramQuantile_out_of_range.
  - rewrite (proj1 (Scalar_outcome v) H). reflexivity.
  - now apply Aggregation_no_TypeError.
  - now apply HistogramQuantile_no_TypeError.
Qed.

(** C2 as worded fails on a range vector passed to [HistogramQuantile]
    with the quantile 2: the quantile is checked first and the call raises
    [ValueError], not [TypeError]. *)
Lemma HistogramQuantile_RangeVector_quantile_first :
  is_RangeVector (RangeVector "test_total" None None) /\
  HistogramQuantile (PyInt 2) (RangeVector "test_total" None None) =
    Raise (ValueError "quantile should be between 0 and 1") /\
  raises_TypeError
    (HistogramQuantile (PyInt 2) (RangeVector "test_total" None None)) = false.
Proof. repeat split. Qed.

(** [vector_kind_checks] at an instant vector. *)
Lemma vector_kind_checks_witness :
  instant_capable (InstantVector "test_total" None) /\
  raises_TypeError (Rate (InstantVector "test_total" None) None) = true /\
  raises_TypeError (Scalar (InstantVector "test_total" None)) = false.
Proof.
  pose proof (vector_kind_checks (InstantVector "test_total" None) None
                (PyInt 1) A_Sum "sum" None None) as H.
  destruct H as (_ & _ & _ & _ & H1 & _ & H2).
  assert (Hv : instant_capable (InstantVector "test_total" None))
    by exact I.
  split; [exact Hv|]. split.
  - exact (proj1 (H1 Hv)).
  - exact (proj1 (H2 Hv)).
Defined.

(** ** Quantile *)

(** C4: [HistogramQuantile(q, v)] raises the [ValueError] whose message
    names the range 0 to 1 exactly when [q < 0] or [q > 1], whatever [v]
    is; 0 and 1 are accepted; and for an accepted [q] and an
    InstantVector-capable [v] the node renders as
    [histogram_quantile(q, v)]. *)
Theorem HistogramQuantile_quantile_range
  (float_repr : float -> string) (q : number) (v : value) :
  (HistogramQuantile q v =
     Raise (ValueError "quantile should be between 0 and 1")
   <-> out_of_range q) /\
  (raises_ValueError (HistogramQuantile q v) = true <-> out_of_range q) /\
  ~ out_of_range (PyInt 0) /\ ~ out_of_range (PyInt 1) /\
  ~ out_of_range (PyFloat PrimFloat.zero) /\
  ~ out_of_range (PyFloat PrimFloat.one) /\
  (~ out_of_range q -> instant_capable v ->
   exists n, HistogramQuantile q v = Return n /\
     str float_repr n =
       "histogram_quantile(" ++ str_number float_repr q ++ ", "
       ++ str float_repr v ++ ")").
Proof.
  assert (Hno : forall r : result value,
             (out_of_range q -> False) ->
             r = HistogramQuantile q v -> raises_ValueError r = false).
  { intros r Hq ->. apply quantile_check_false in Hq.
    unfold HistogramQuantile. rewrite Hq. cbn [raise_if bind].
    destruct (isinstance v C_InstantVector); reflexivity. }
  split; [|split; [|split; [|split; [|split; [|split]]]]].
  - split; [|apply HistogramQuantile_out_of_range].
    intros H. apply quantile_check_iff.
    destruct (lt_literal q 0 || gt_literal q 1) eqn:E; [reflexivity|].
    apply quantile_check_false in E.
    specialize (Hno _ E eq_refl). rewrite H in Hno. discriminate.
  - split.
    + intros H. apply quantile_check_iff.
      destruct (lt_literal q 0 || gt_literal q 1) eqn:E; [reflexivity|].
      apply quantile_check_false in E.
      specialize (Hno _ E eq_refl). congruence.
    + intros Hq. rewrite (HistogramQuantile_out_of_range q v Hq). reflexivity.
  - cbn. lia.
  - cbn. lia.
  - cbn. intros [H|H]; vm_compute in H; discriminate.
  - cbn. intros [H|H]; vm_compute in H; discriminate.
  - intros Hq Hv. exists (OHistogramQuantile q v). split.
    + apply (HistogramQuantile_in_range q v Hq), Hv.
    + reflexivity.
Qed.

(** [HistogramQuantile_quantile_range] at the quantile 1 over an instant
    vector. *)
Lemma HistogramQuantile_quantile_range_witness :
  exists n,
    HistogramQuantile (PyInt 1) (InstantVector "test_total" (Some "{}"))
      = Return n /\
    str (fun _ => "0.5") n = "histogram_quantile(1, test_total{})".
Proof.
  destruct (HistogramQuantile_quantile_range (fun _ => "0.5") (PyInt 1)
              (InstantVector "test_total" (Some "{}")))
    as (_ & _ & _ & H1 & _ & _ & H).
  destruct (H H1 I) as [n [Hn Hs]].
  exists n. split; [exact Hn|exact Hs].
Defined.

(** ** Grouping *)

(** C3 as worded fails on two empty lists: the check looks at whether the
    arguments were passed, so [Sum(v, by=[], without=[])] raises
    [ValueError] although neither list has a label. *)
Lemma Sum_two_empty_lists_raises :
  Sum (InstantVector "test_total" None) (Some []) (Some []) =
    Raise (ValueError "clause should be by or without, not both") /\
  ~ (non_empty (Some []) /\ non_empty (Some [])).
Proof.
  split; [reflexivity|].
  intros [[x [xs H]] _]. discriminate.
Qed.

(** C3, as the code has it: on an InstantVector-capable vector, an
    aggregation raises the [ValueError] of the exclusive clauses exactly
    when both [by] and [without] are passed, empty or not; with at most one
    of them passed this error is never raised, and the five named
    aggregations then raise no [ValueError] at all. *)
Theorem aggregation_by_without_exclusive
  (cls : agg_class) (op : string) (v : value)
  (by_ without : option (list string)) :
  instant_capable v ->
  (Aggregation_init cls op v by_ without =
     Raise (ValueError "clause should be by or without, not both")
   <-> supplied by_ /\ supplied without) /\
  (raises_ValueError (Count v by_ without) = true
   <-> supplied by_ /\ supplied without) /\
  (raises_ValueError (Sum v by_ without) = true
   <-> supplied by_ /\ supplied without) /\
  (raises_ValueError (Max v by_ without) = true
   <-> supplied by_ /\ supplied without) /\
  (raises_ValueError (Min v by_ without) = true
   <-> supplied by_ /\ supplied without) /\
  (raises_ValueError (Avg v by_ without) = true
   <-> supplied by_ /\ supplied without).
Proof.
  intros Hv.
  assert (Hnamed : forall c o,
             str_in o Aggregation_.VALID_OPERATORS = true ->
             raises_ValueError (Aggregation_init c o v by_ without) = true
             <-> supplied by_ /\ supplied without).
  { intros c o Ho. split.
    - intros H.
      destruct (is_not_None by_ && is_not_None without) eqn:E;
        [now apply supplied_iff|].
      assert (Hn : ~ (supplied by_ /\ supplied without)).
      { rewrite <- supplied_iff. congruence. }
      rewrite (Aggregation_not_both c o v by_ without Hv Hn), Ho in H.
      discriminate.
    - intros [Hb Hw]. rewrite (Aggregation_both c o v by_ without Hv Hb Hw).
      reflexivity. }
  split; [|repeat apply conj; apply Hnamed; reflexivity].
  split.
  - intros H.
    destruct (is_not_None by_ && is_not_None without) eqn:E;
      [now apply supplied_iff|].
    assert (Hn : ~ (supplied by_ /\ supplied without)).
    { rewrite <- supplied_iff. congruence. }
    rewrite (Aggregation_not_both cls op v by_ without Hv Hn) in H.
    destruct (str_in op _); discriminate.
  - intros [Hb Hw]. now apply Aggregation_both.
Qed.

(** [aggregation_by_without_exclusive] at [Sum] over an instant vector
    with one grouping list. *)
Lemma aggregation_by_without_exclusive_witness :
  instant_capable (InstantVector "test_total" None) /\
  (raises_ValueError (Sum (InstantVector "test_total" None) (Some ["hi"]) None)
     = true
   <-> supplied (Some ["hi"]) /\ supplied None).
Proof.
  split; [exact I|].
  exact (proj1 (proj2 (proj2
           (aggregation_by_without_exclusive A_Sum "sum"
              (InstantVector "test_total" None) (Some ["hi"]) None I)))).
Defined.

(** C6: a constructed aggregation renders as its operator applied to the
    rendered vector, followed by [ by (l1, l2, ...)] when [by] has labels,
    by [ without (l1, l2, ...)] when [without] has labels, and by nothing
    otherwise, the labels in their order and comma-space joined;
    [Sum(v, by=["hi", "hello"])] renders as [sum(v) by (hi, hello)]. *)
Theorem aggregation_rendering
  (float_repr : float -> string)
  (cls : agg_class) (op : string) (v n : value)
  (by_ without : option (list string)) :
  Aggregation_init cls op v by_ without = Return n ->
  instant_capable v /\
  (non_empty by_ ->
   str float_repr n =
     op ++ "(" ++ str float_repr v ++ ")"
     ++ " by (" ++ String.concat ", " (labels by_) ++ ")") /\
  (non_empty without ->
   str float_repr n =
     op ++ "(" ++ str float_repr v ++ ")"
     ++ " without (" ++ String.concat ", " (labels without) ++ ")") /\
  (~ non_empty by_ -> ~ non_empty without ->
   str float_repr n = op ++ "(" ++ str float_repr v ++ ")") /\
  (Sum v (Some ["hi"; "hello"]) None =
     Return (OAggregation A_Sum "sum" v " by (hi, hello)") /\
   str float_repr (OAggregation A_Sum "sum" v " by (hi, hello)") =
     "sum(" ++ str float_repr v ++ ") by (hi, hello)").
Proof.
  intros Hn.
  assert (Hv : instant_capable v).
  { apply isinstance_InstantVector_iff.
    unfold Aggregation_init in Hn.
    destruct (isinstance v C_InstantVector); [reflexivity|discriminate]. }
  assert (Hs : ~ (supplied by_ /\ supplied without)).
  { intros [Hb Hw].
    rewrite (Aggregation_both cls op v by_ without Hv Hb Hw) in Hn.
    discriminate. }
  rewrite (Aggregation_not_both cls op v by_ without Hv Hs) in Hn.
  destruct (str_in op _); [|discriminate].
  injection Hn as <-.
  split; [exact Hv|].
  split; [|split; [|split]].
  - intros (x & xs & ->). destruct without as [w|].
    + exfalso. apply Hs. split; discriminate.
    + reflexivity.
  - intros (x & xs & ->). reflexivity.
  - intros Hb Hw.
    assert (truthy by_ = false) as ->.
    { destruct by_ as [[|x xs]|]; try reflexivity.
      exfalso. apply Hb. now exists x, xs. }
    assert (truthy without = false) as ->.
    { destruct without as [[|x xs]|]; try reflexivity.
      exfalso. apply Hw. now exists x, xs. }
    reflexivity.
  - split.
    + unfold Sum.
      rewrite (Aggregation_not_both A_Sum "sum" v (Some ["hi"; "hello"]) None Hv).
      * reflexivity.
      * intros [_ H]. now apply H.
    + reflexivity.
Qed.

(** [aggregation_rendering] at [Sum] grouped by two labels. *)
Lemma aggregation_rendering_witness :
  Sum (InstantVector "test_total" (Some "{}")) (Some ["hi"; "hello"]) None =
    Return (OAggregation A_Sum "sum" (InstantVector "test_total" (Some "{}"))
              " by (hi, hello)") /\
  str (fun _ => "") (OAggregation A_Sum "sum"
                       (InstantVector "test_total" (Some "{}"))
                       " by (hi, hello)")
    = "sum(test_total{}) by (hi, hello)".
Proof.
  split; [reflexivity|].
  refine (proj1 (proj2 (aggregation_rendering (fun _ => "") A_Sum "sum"
                          (InstantVector "test_total" (Some "{}")) _
                          (Some ["hi"; "hello"]) None eq_refl)) _).
  now exists "hi", ["hello"].
Defined.

(** C10: the exclusivity check of the aggregations looks at whether the
    arguments were passed: with [by=[]] and [without=[]] the call raises
    [ValueError] although both lists are empty; with [by=[]] alone it
    succeeds and the node is the one built without the argument, rendered
    with no grouping suffix. *)
Theorem aggregation_presence_check
  (float_repr : float -> string)
  (cls : agg_class) (op : string) (v : value) :
  instant_capable v ->
  Aggregation_init cls op v (Some []) (Some []) =
    Raise (ValueError "clause should be by or without, not both") /\
  Sum v (Some []) (Some []) =
    Raise (ValueError "clause should be by or without, not both") /\
  Aggregation_init cls op v (Some []) None = Aggregation_init cls op v None None /\
  Aggregation_init cls op v None (Some []) = Aggregation_init cls op v None None /\
  Sum v (Some []) None = Return (OAggregation A_Sum "sum" v "") /\
  Sum v None None = Return (OAggregation A_Sum "sum" v "") /\
  str float_repr (OAggregation A_Sum "sum" v "") =
    "sum(" ++ str float_repr v ++ ")".
Proof.
  intros Hv.
  assert (Hb : Aggregation_init cls op v (Some []) (Some []) =
               Raise (ValueError "clause should be by or without, not both")).
  { apply Aggregation_both; [exact Hv| |]; discriminate. }
  assert (Hs : Sum v (Some []) (Some []) =
               Raise (ValueError "clause should be by or without, not both")).
  { apply Aggregation_both; [exact Hv| |]; discriminate. }
  apply isinstance_InstantVector_iff in Hv.
  repeat split; try assumption;
    unfold Sum, Aggregation_init; rewrite Hv; reflexivity.
Qed.

(** [aggregation_presence_check] at [Max] over an instant vector. *)
Lemma aggregation_presence_check_witness :
  Aggregation_init A_Max "max" (InstantVector "test_total" None)
    (Some []) (Some []) =
    Raise (ValueError "clause should be by or without, not both") /\
  Aggregation_init A_Max "max" (InstantVector "test_total" None) (Some []) None
    = Aggregation_init A_Max "max" (InstantVector "test_total" None) None None.
Proof.
  destruct (aggregation_presence_check (fun _ => "") A_Max "max"
              (InstantVector "test_total" None) I)
    as (H1 & _ & H2 & _).
  split; [exact H1|exact H2].
Defined.

(** ** Range vectors and rate *)

Lemma prefix_append (a b : string) : String.prefix a (a ++ b) = true.
Proof.
  induction a as [|x a IH]; cbn.
  - now destruct b.
  - destruct (ascii_dec x x); [exact IH|congruence].
Qed.

Lemma str_in_VALID_FUNCTIONS (f : string) :
  str_in f Rate_.VALID_FUNCTIONS = true <-> f = "rate" \/ f = "irate".
Proof.
  unfold str_in. cbn. rewrite !orb_true_iff, !String.eqb_eq.
  intuition discriminate.
Qed.

(** C7: a range vector renders as its metric, its selector and its window
    in brackets, the window being [2m] when not given; over a range vector
    [Rate] with the function [rate] or [irate] renders as the function
    applied to the rendered vector, and raises [ValueError] for any other
    function; [Rate(RangeVector("x", "{}", "5d"))] renders as
    [rate(x{}[5d])], and with [irate] the rendering starts with
    [irate(]. *)
Theorem Rate_rendering
  (float_repr : float -> string) (m : string) (p w : option string)
  (f : string) :
  str float_repr (RangeVector m p w) =
    m ++ default "" p ++ "[" ++ default "2m" w ++ "]" /\
  str float_repr (RangeVector m p None) = m ++ default "" p ++ "[2m]" /\
  (f = "rate" \/ f = "irate" ->
   Rate (RangeVector m p w) (Some f) = Return (ORate f (RangeVector m p w)) /\
   str float_repr (ORate f (RangeVector m p w)) =
     f ++ "(" ++ str float_repr (RangeVector m p w) ++ ")") /\
  (~ (f = "rate" \/ f = "irate") ->
   Rate (RangeVector m p w) (Some f) =
     Raise (ValueError "Rate function should be one of: ['rate', 'irate']")) /\
  Rate (RangeVector "x" (Some "{}") (Some "5d")) None =
    Return (ORate "rate" (RangeVector "x" (Some "{}") (Some "5d"))) /\
  str float_repr (ORate "rate" (RangeVector "x" (Some "{}") (Some "5d"))) =
    "rate(x{}[5d])" /\
  Rate (RangeVector m p w) (Some "irate") =
    Return (ORate "irate" (RangeVector m p w)) /\
  String.prefix "irate(" (str float_repr (ORate "irate" (RangeVector m p w)))
    = true.
Proof.
  split; [reflexivity|]. split; [reflexivity|].
  split; [|split; [|split; [|split; [|split]]]]; try reflexivity.
  - intros Hf. split; [|reflexivity].
    rewrite Rate_RangeVector by exact I. cbn [default].
    now rewrite (proj2 (str_in_VALID_FUNCTIONS f) Hf).
  - intros Hf. rewrite Rate_RangeVector by exact I. cbn [default].
    destruct (str_in f Rate_.VALID_FUNCTIONS) eqn:E; [|reflexivity].
    now apply str_in_VALID_FUNCTIONS in E.
  - exact (prefix_append "irate(" _).
Qed.

(** [Rate_rendering] at the function [irate]. *)
Lemma Rate_rendering_witness :
  Rate (RangeVector "test_total" (Some "{}") None) (Some "irate") =
    Return (ORate "irate" (RangeVector "test_total" (Some "{}") None)) /\
  str (fun _ => "") (ORate "irate" (RangeVector "test_total" (Some "{}") None))
    = "irate(test_total{}[2m])".
Proof.
  destruct (Rate_rendering (fun _ => "") "test_total" (Some "{}") None "irate")
    as (_ & _ & H & _).
  exact (H (or_intror eq_refl)).
Defined.

(** ** Nesting *)

Lemma str_in_In (x : string) (l : list string) :
  str_in x l = true <-> In x l.
Proof.
  unfold str_in. rewrite existsb_exists. split.
  - intros [y [Hy He]]. apply String.eqb_eq in He. now subst.
  - intros H. exists x. split; [exact H|apply String.eqb_refl].
Qed.

Lemma wrap_valid (w : wrapper) (v : value) :
  valid_arguments w -> instant_capable v ->
  exists n, wrap w v = Return n /\ instant_capable n.
Proof.
  intros Hw Hv. destruct w as [|q|cls op by_ without];
    cbn [wrap valid_arguments] in *.
  - exists (OScalar v). split; [now apply Scalar_outcome|exact I].
  - exists (OHistogramQuantile q v).
    split; [now apply HistogramQuantile_in_range|exact I].
  - destruct Hw as [Hop Hs].
    rewrite (Aggregation_not_both cls op v by_ without Hv Hs).
    rewrite (proj2 (str_in_In _ _) Hop).
    eexists. split; [reflexivity|exact I].
Qed.

Lemma nest_valid (ws : list wrapper) :
  Forall valid_arguments ws ->
  forall v, instant_capable v ->
  exists n, nest ws v = Return n /\ instant_capable n.
Proof.
  induction 1 as [|w ws Hw _ IH]; intros v Hv.
  - exists v. split; [reflexivity|exact Hv].
  - destruct (wrap_valid w v Hw Hv) as [n [Hn Hi]].
    cbn [nest]. rewrite Hn. cbn [Py.bind]. now apply IH.
Qed.

Lemma wrapper_result_instant_capable
  (v n : value) (f : option string) (q : number)
  (cls : agg_class) (op : string) (by_ without : option (list string)) :
  Rate v f = Return n \/ Increase v = Return n \/ Delta v = Return n \/
  Scalar v = Return n \/ HistogramQuantile q v = Return n \/
  Aggregation_init cls op v by_ without = Return n ->
  instant_capable n.
Proof.
  unfold Rate, Increase, Delta, Scalar, HistogramQuantile, Aggregation_init.
  intros [H|[H|[H|[H|[H|H]]]]];
    repeat match type of H with
           | context [raise_if ?c _] => destruct c; cbn [raise_if Py.bind] in H
           end;
    try discriminate; injection H as <-; exact I.
Qed.

(** C9: a node returned by [Rate], [Increase], [Delta], [Scalar],
    [HistogramQuantile] or an aggregation is an instance of
    [InstantVector]; it is accepted as the vector of [Scalar], of
    [HistogramQuantile] and of every aggregation, none of which raises
    [TypeError] on it, and any nesting of these wrappers over it, with
    their other arguments in their domain, constructs a node. *)
Theorem wrapper_nodes_nest
  (v n : value) (f : option string) (q : number)
  (cls : agg_class) (op : string) (by_ without : option (list string)) :
  Rate v f = Return n \/ Increase v = Return n \/ Delta v = Return n \/
  Scalar v = Return n \/ HistogramQuantile q v = Return n \/
  Aggregation_init cls op v by_ without = Return n ->
  isinstance n C_InstantVector = true /\
  Scalar n = Return (OScalar n) /\
  (forall q', ~ out_of_range q' ->
     HistogramQuantile q' n = Return (OHistogramQuantile q' n)) /\
  (forall q', raises_TypeError (HistogramQuantile q' n) = false) /\
  (forall c o b wo,
     In o Aggregation_.VALID_OPERATORS -> ~ (supplied b /\ supplied wo) ->
     exists d, Aggregation_init c o n b wo = Return (OAggregation c o n d)) /\
  (forall c o b wo, raises_TypeError (Aggregation_init c o n b wo) = false) /\
  (forall ws, Forall valid_arguments ws ->
     exists n', nest ws n = Return n' /\ isinstance n' C_InstantVector = true).
Proof.
  intros H.
  assert (Hn : instant_capable n)
    by exact (wrapper_result_instant_capable v n f q cls op by_ without H).
  clear H.
  split; [now apply isinstance_InstantVector_iff|].
  split; [now apply Scalar_outcome|].
  split; [intros q' Hq; now apply HistogramQuantile_in_range|].
  split; [intros q'; now apply HistogramQuantile_no_TypeError|].
  split.
  { intros c o b wo Ho Hs.
    rewrite (Aggregation_not_both c o n b wo Hn Hs).
    rewrite (proj2 (str_in_In _ _) Ho). eexists. reflexivity. }
  split; [intros c o b wo; now apply Aggregation_no_TypeError|].
  intros ws Hws. destruct (nest_valid ws Hws n Hn) as [n' [Hn' Hi]].
  exists n'. split; [exact Hn'|now apply isinstance_InstantVector_iff].
Qed.

(** [wrapper_nodes_nest] at a rate, nested in [Sum], [HistogramQuantile]
    and [Scalar]. *)
Lemma wrapper_nodes_nest_witness :
  Rate (RangeVector "test_total" None None) None =
    Return (ORate "rate" (RangeVector "test_total" None None)) /\
  exists n',
    nest [W_Aggregation A_Sum "sum" (Some ["le"]) None;
          W_HistogramQuantile (PyInt 1); W_Scalar]
      (ORate "rate" (RangeVector "test_total" None None)) = Return n' /\
    isinstance n' C_InstantVector = true.
Proof.
  split; [reflexivity|].
  refine (proj2 (proj2 (proj2 (proj2 (proj2 (proj2
    (wrapper_nodes_nest (RangeVector "test_total" None None)
       (ORate "rate" (RangeVector "test_total" None None))
       None (PyInt 0) A_Sum "sum" None None (or_introl eq_refl))))))) _ _).
  repeat constructor; cbn; try lia; try tauto.
  intros [_ H]. now apply H.
Defined.

(** ** The generic aggregation *)

(** [_Aggregation(operator, vector, by, without)] returns a node exactly
    when the vector is InstantVector-capable, at most one grouping list is
    passed and the operator is one of the five; with the first two
    conditions met and any other operator it raises the [ValueError] that
    lists the operators. *)
Theorem Aggregation_operator_check
  (op : string) (v : value) (by_ without : option (list string)) :
  ((exists n, _Aggregation op v by_ without = Return n)
   <-> instant_capable v /\ ~ (supplied by_ /\ supplied without)
       /\ In op Aggregation_.VALID_OPERATORS) /\
  (_Aggregation op v by_ without =
     Raise (ValueError
              "operator should be one of: ['sum', 'min', 'max', 'avg', 'count']")
   <-> instant_capable v /\ ~ (supplied by_ /\ supplied without)
       /\ ~ In op Aggregation_.VALID_OPERATORS).
Proof.
  unfold _Aggregation.
  destruct (isinstance v C_InstantVector) eqn:Ei.
  - apply isinstance_InstantVector_iff in Ei.
    destruct (is_not_None by_ && is_not_None without) eqn:Eb.
    + apply supplied_iff in Eb. destruct Eb as [Hb Hw].
      rewrite (Aggregation_both A_Aggregation op v by_ without Ei Hb Hw).
      split; split.
      * intros [n H]. discriminate.
      * intros (_ & H & _). exfalso. now apply H.
      * discriminate.
      * intros (_ & H & _). exfalso. now apply H.
    + assert (Hn : ~ (supplied by_ /\ supplied without)).
      { rewrite <- supplied_iff. congruence. }
      rewrite (Aggregation_not_both A_Aggregation op v by_ without Ei Hn).
      destruct (str_in op Aggregation_.VALID_OPERATORS) eqn:Eo.
      * apply str_in_In in Eo. split; split.
        -- intros _. now repeat split.
        -- intros _. eexists. reflexivity.
        -- discriminate.
        -- intros (_ & _ & H). now elim H.
      * assert (Ho : ~ In op Aggregation_.VALID_OPERATORS).
        { rewrite <- str_in_In. congruence. }
        split; split.
        -- intros [n H]. discriminate.
        -- intros (_ & _ & H). now elim Ho.
        -- intros _. now repeat split.
        -- reflexivity.
  - apply not_isinstance_InstantVector in Ei.
    rewrite (Aggregation_not_instant A_Aggregation op v by_ without Ei).
    split; split.
    + intros [n H]. discriminate.
    + intros (H & _). now elim Ei.
    + discriminate.
    + intros (H & _). now elim Ei.
Qed.

(** ** Well-kinded expressions *)

Lemma Rate_Return (v n : value) (f : option string) :
  Rate v f = Return n ->
  is_RangeVector v
  /\ (default "rate" f = "rate" \/ default "rate" f = "irate")
  /\ n = ORate (default "rate" f) v.
Proof.
  intros H.
  assert (Hv : is_RangeVector v).
  { apply isinstance_RangeVector_iff.
    destruct (isinstance v C_RangeVector) eqn:E; [reflexivity|].
    apply not_isinstance_RangeVector in E.
    rewrite (Rate_not_RangeVector v f E) in H. discriminate. }
  rewrite (Rate_RangeVector v f Hv) in H.
  destruct (str_in (default "rate" f) Rate_.VALID_FUNCTIONS) eqn:E;
    [|discriminate].
  apply str_in_VALID_FUNCTIONS in E. injection H as <-. now repeat split.
Qed.

Lemma Aggregation_Return (cls : agg_class) (op : string) (v n : value)
  (by_ without : option (list string)) :
  Aggregation_init cls op v by_ without = Return n ->
  instant_capable v /\ In op Aggregation_.VALID_OPERATORS
  /\ exists d, n = OAggregation cls op v d /\ is_dimension d.
Proof.
  intros H.
  assert (Hv : instant_capable v).
  { apply isinstance_InstantVector_iff.
    destruct (isinstance v C_InstantVector) eqn:E; [reflexivity|].
    apply not_isinstance_InstantVector in E.
    rewrite (Aggregation_not_instant cls op v by_ without E) in H.
    discriminate. }
  assert (Hs : ~ (supplied by_ /\ supplied without)).
  { intros [Hb Hw].
    rewrite (Aggregation_both cls op v by_ without Hv Hb Hw) in H.
    discriminate. }
  rewrite (Aggregation_not_both cls op v by_ without Hv Hs) in H.
  destruct (str_in op Aggregation_.VALID_OPERATORS) eqn:E; [|discriminate].
  apply str_in_In in E. injection H as <-.
  split; [exact Hv|]. split; [exact E|].
  eexists. split; [reflexivity|].
  destruct without as [[|x xs]|]; cbn [truthy labels].
  - destruct by_ as [[|y ys]|]; cbn [truthy labels];
      [now left|right; exists y, ys; now left|now left].
  - right. exists x, xs. now right.
  - destruct by_ as [[|y ys]|]; cbn [truthy labels];
      [now left|right; exists y, ys; now left|now left].
Qed.

Lemma well_kinded_preserved
  (v n : value) (f : option string) (q : number)
  (cls : agg_class) (op : string) (by_ without : option (list string))
  (m : string) (p w : option string) :
  well_kinded (InstantVector m p) /\
  well_kinded (RangeVector m p w) /\
  (well_kinded v ->
   Rate v f = Return n \/ Increase v = Return n \/ Delta v = Return n \/
   Scalar v = Return n \/ HistogramQuantile q v = Return n \/
   Aggregation_init cls op v by_ without = Return n ->
   well_kinded n).
Proof.
  split; [exact I|]. split; [exact I|].
  intros Hv [H|[H|[H|[H|[H|H]]]]].
  - destruct (Rate_Return v n f H) as (Hr & Hf & ->). cbn. tauto.
  - destruct (isinstance v C_RangeVector) eqn:E.
    + apply isinstance_RangeVector_iff in E.
      rewrite (proj1 (Increase_outcome v) E) in H. injection H as <-.
      cbn. tauto.
    + apply not_isinstance_RangeVector in E.
      rewrite (proj2 (Increase_outcome v) E) in H. discriminate.
  - destruct (isinstance v C_RangeVector) eqn:E.
    + apply isinstance_RangeVector_iff in E.
      rewrite (proj1 (Delta_outcome v) E) in H. injection H as <-.
      cbn. tauto.
    + apply not_isinstance_RangeVector in E.
      rewrite (proj2 (Delta_outcome v) E) in H. discriminate.
  - destruct (isinstance v C_InstantVector) eqn:E.
    + apply isinstance_InstantVector_iff in E.
      rewrite (proj1 (Scalar_outcome v) E) in H. injection H as <-.
      cbn. tauto.
    + apply not_isinstance_InstantVector in E.
      rewrite (proj2 (Scalar_outcome v) E) in H. discriminate.
  - destruct (lt_literal q 0 || gt_literal q 1) eqn:Eq.
    + apply quantile_check_iff in Eq.
      rewrite (HistogramQuantile_out_of_range q v Eq) in H. discriminate.
    + apply quantile_check_false in Eq.
      destruct (isinstance v C_InstantVector) eqn:E.
      * apply isinstance_InstantVector_iff in E.
        rewrite (proj1 (HistogramQuantile_in_range q v Eq) E) in H.
        injection H as <-. cbn. tauto.
      * apply not_isinstance_InstantVector in E.
        rewrite (proj2 (HistogramQuantile_in_range q v Eq) E) in H.
        discriminate.
  - destruct (Aggregation_Return cls op v n by_ without H)
      as (Hi & Ho & d & -> & Hd).
    cbn [well_kinded]. tauto.
Qed.

(** The constructors keep expressions well-kinded: the two vector
    constructors return well-kinded leaves, and a wrapper or aggregation
    that returns on a well-kinded vector returns a well-kinded node, so a
    range vector is only ever found directly under [Rate], [Increase] or
    [Delta], and these never wrap anything else. *)
Theorem constructors_keep_well_kinded
  (v n : value) (f : option string) (q : number)
  (cls : agg_class) (op : string) (by_ without : option (list string))
  (m : string) (p w : option string) :
  well_kinded (InstantVector m p) /\
  well_kinded (RangeVector m p w) /\
  (well_kinded v ->
   Rate v f = Return n \/ Increase v = Return n \/ Delta v = Return n \/
   Scalar v = Return n \/ HistogramQuantile q v = Return n \/
   Aggregation_init cls op v by_ without = Return n ->
   well_kinded n).
Proof.
  exact (well_kinded_preserved v n f q cls op by_ without m p w).
Qed.

(** [constructors_keep_well_kinded] at a sum of rates. *)
Lemma constructors_keep_well_kinded_witness :
  well_kinded
    (OAggregation A_Sum "sum"
       (ORate "rate" (RangeVector "test_total" None None)) " by (le)").
Proof.
  refine (proj2 (proj2
    (constructors_keep_well_kinded
       (ORate "rate" (RangeVector "test_total" None None)) _
       None (PyInt 0) A_Sum "sum" (Some ["le"]) None "" None None)) _ _).
  - cbn. tauto.
  - do 5 right. reflexivity.
Defined.

(** ** panels.py *)

Lemma dict_get_app (a b : list (string * pyval)) (k : string) :
  dict_get (a ++ b)%list k =
    match dict_get a k with
    | Some v => Some v
    | None => dict_get b k
    end.
Proof.
  induction a as [|[k' v] a IH]; cbn; [reflexivity|].
  destruct (String.eqb k' k); [reflexivity|exact IH].
Qed.

Lemma dict_get_setdefault (d : list (string * pyval)) (k' k : string)
  (v : pyval) :
  dict_get (setdefault d k' v) k =
    match dict_get d k with
    | Some x => Some x
    | None => if String.eqb k' k then Some v else None
    end.
Proof.
  unfold setdefault. destruct (dict_get d k') as [x|] eqn:E.
  - destruct (dict_get d k) as [y|] eqn:E'; [reflexivity|].
    destruct (String.eqb k' k) eqn:Ek; [|reflexivity].
    apply String.eqb_eq in Ek. congruence.
  - rewrite dict_get_app. cbn. destruct (dict_get d k); reflexivity.
Qed.

Lemma dict_get_None (d : list (string * pyval)) (k : string) :
  dict_get d k = None <-> ~ In k (keys d).
Proof.
  induction d as [|[k' v] d IH]; cbn; [tauto|].
  destruct (String.eqb k' k) eqn:E.
  - apply String.eqb_eq in E. split; [discriminate|tauto].
  - apply String.eqb_neq in E. rewrite IH. tauto.
Qed.

Lemma keys_setdefault (d : list (string * pyval)) (k : string) (v : pyval) :
  (NoDup (keys d) -> NoDup (keys (setdefault d k v))) /\
  (forall x, In x (keys (setdefault d k v)) <-> In x (keys d) \/ x = k).
Proof.
  unfold setdefault. destruct (dict_get d k) as [y|] eqn:E.
  - split; [tauto|]. intros x. split; [tauto|].
    intros [H| ->]; [exact H|].
    destruct (in_dec string_dec k (keys d)) as [Hin|Hn]; [exact Hin|].
    apply dict_get_None in Hn. congruence.
  - apply dict_get_None in E. unfold keys in *. rewrite map_app. cbn.
    split.
    + intros Hd. apply NoDup_app; [exact Hd|repeat constructor; tauto|].
      intros x Hx [<-|[]]. contradiction.
    + intros x. rewrite in_app_iff. cbn. intuition congruence.
Qed.

(** [graph] hands every keyword argument of its caller to [Graph]
    unchanged, and fills [lineWidth], [legend], [transparent],
    [nullPointMode] and [steppedLine] with their defaults only where the
    caller passed none; the four named arguments are passed as given. *)
Theorem graph_keeps_caller_arguments
  (title description : string) (targets : list pyval) (yAxes : pyval)
  (params : list (string * pyval)) (k : string) :
  let kwargs :=
    Panels.kwargs_of (Panels.graph title description targets yAxes params) in
  dict_get kwargs "title" = Some (PStr title) /\
  dict_get kwargs "description" = Some (PStr description) /\
  dict_get kwargs "targets" = Some (PList targets) /\
  dict_get kwargs "yAxes" = Some yAxes /\
  (~ In k Panels.named ->
   dict_get kwargs k =
     match dict_get params k with
     | Some v => Some v
     | None => dict_get Panels.defaults k
     end).
Proof.
  cbv zeta. repeat (split; [reflexivity|]).
  intros Hk. unfold Panels.graph. cbv zeta. cbn [Panels.kwargs_of].
  assert (Hn : forall x, In x Panels.named -> String.eqb x k = false).
  { intros x Hx. apply String.eqb_neq. intros ->. contradiction. }
  cbn [app dict_get].
  rewrite (Hn "title"), (Hn "description"), (Hn "targets"), (Hn "yAxes")
    by (cbn; tauto).
  rewrite !dict_get_setdefault.
  destruct (dict_get params k) as [v|]; [reflexivity|].
  cbn [Panels.defaults dict_get].
  repeat match goal with
         | |- context [String.eqb ?a k] => destruct (String.eqb a k)
         end; reflexivity.
Qed.

(** [graph_keeps_caller_arguments] at a caller that passes its own
    legend. *)
Lemma graph_keeps_caller_arguments_witness :
  dict_get
    (Panels.kwargs_of
       (Panels.graph "RPS" "" [] PNone
          [("span", PInt 6); ("legend", PCall "Legend" [("show", PBool true)])]))
    "legend" = Some (PCall "Legend" [("show", PBool true)]).
Proof.
  refine (proj2 (proj2 (proj2 (proj2
    (graph_keeps_caller_arguments "RPS" "" [] PNone
       [("span", PInt 6); ("legend", PCall "Legend" [("show", PBool true)])]
       "legend")))) _).
  cbn. intros [H|[H|[H|[H|[]]]]]; discriminate H.
Defined.

(** When the caller's keyword arguments are distinct and none is one of
    the four named ones (as a Python call guarantees), [Graph] receives no
    keyword twice, and receives exactly the named ones, the caller's and
    the five defaulted ones. *)
Theorem graph_keywords_distinct
  (title description : string) (targets : list pyval) (yAxes : pyval)
  (params : list (string * pyval)) :
  NoDup (keys params) ->
  (forall k, In k Panels.named -> ~ In k (keys params)) ->
  let kwargs :=
    Panels.kwargs_of (Panels.graph title description targets yAxes params) in
  NoDup (keys kwargs) /\
  (forall k, In k (keys kwargs)
             <-> In k Panels.named \/ In k (keys params)
                 \/ In k (keys Panels.defaults)).
Proof.
  intros Hd Hnamed. cbv zeta. unfold Panels.graph. cbv zeta.
  cbn [Panels.kwargs_of].
  set (p1 := setdefault params "lineWidth" (PInt 1)).
  set (p2 := setdefault p1 "legend" _).
  set (p3 := setdefault p2 "transparent" _).
  set (p4 := setdefault p3 "nullPointMode" _).
  set (p5 := setdefault p4 "steppedLine" _).
  assert (Hin : forall k, In k (keys p5)
                          <-> In k (keys params) \/ In k (keys Panels.defaults)).
  { intros k. subst p5 p4 p3 p2 p1.
    rewrite !(fun d k' v => proj2 (keys_setdefault d k' v)).
    cbn. intuition congruence. }
  assert (Hd5 : NoDup (keys p5)).
  { subst p5 p4 p3 p2 p1.
    repeat apply (fun d k' v => proj1 (keys_setdefault d k' v)). exact Hd. }
  split.
  - unfold keys. rewrite map_app. apply NoDup_app.
    + cbn. repeat constructor; cbn; intuition discriminate.
    + exact Hd5.
    + intros k Hk Hk'. apply Hin in Hk'. destruct Hk' as [Hk'|Hk'].
      * exact (Hnamed k Hk Hk').
      * cbn in Hk, Hk'. intuition (subst; discriminate).
  - intros k. unfold keys at 1. rewrite map_app, in_app_iff.
    fold (keys p5). rewrite Hin. cbn. tauto.
Qed.

(** [graph_keywords_distinct] at a caller that passes [span] and
    [legend]. *)
Lemma graph_keywords_distinct_witness :
  NoDup
    (keys (Panels.kwargs_of
             (Panels.graph "RPS" "" [] PNone
                [("span", PInt 6);
                 ("legend", PCall "Legend" [("show", PBool true)])]))).
Proof.
  refine (proj1 (graph_keywords_distinct "RPS" "" [] PNone
                   [("span", PInt 6);
                    ("legend", PCall "Legend" [("show", PBool true)])] _ _)).
  - cbn. repeat constructor; cbn; intuition discriminate.
  - cbn. intros k [H|[H|[H|[H|[]]]]] [H'|[H'|[]]]; subst; discriminate.
Defined.

(** ** core.py *)

Lemma format_params_clauses (params : list (string * string)) :
  format_params params = selector_spec params.
Proof.
  unfold format_params, selector_spec, join. do 3 f_equal.
  apply map_ext. intros [k v]. apply format_param_clause_spec.
Qed.

(** The template built by [template] is named and labelled by
    [display_name] and queries [label_values(metric selector,
    metric_label)], where the selector is the clause list of the
    constraints in braces, and is absent altogether (no braces) when no
    constraint is given; it is hidden only on request. *)
Theorem template_query
  (metric display_name metric_label : string)
  (params : option (list (string * string))) (multi : option bool)
  (default_value : option string) (include_all : option bool)
  (all_value regex : option string) (hide : option bool)
  (sort : option pyval) :
  let kwargs :=
    Panels.kwargs_of
      (Core.template metric display_name metric_label params multi
         default_value include_all all_value regex hide sort) in
  dict_get kwargs "name" = Some (PStr display_name) /\
  dict_get kwargs "label" = Some (PStr display_name) /\
  dict_get kwargs "query" =
    Some (PStr ("label_values(" ++ metric
                ++ match params with
                   | None | Some [] => ""
                   | Some (kv :: kvs) => selector_spec (kv :: kvs)
                   end
                ++ ", " ++ metric_label ++ ")")) /\
  (dict_get kwargs "hide" = Some (PConst "HIDE_LABEL") <-> hide = Some true) /\
  (dict_get kwargs "hide" = Some (PConst "SHOW") <-> hide <> Some true).
Proof.
  cbv zeta. unfold Core.template. cbv zeta. cbn [Panels.kwargs_of].
  split; [reflexivity|]. split; [reflexivity|]. split.
  - cbn [dict_get String.eqb Ascii.eqb Bool.eqb]. do 4 f_equal.
    destruct params as [[|kv kvs]|]; cbn [default]; try reflexivity.
    now rewrite format_params_clauses.
  - cbn [dict_get String.eqb Ascii.eqb Bool.eqb].
    destruct hide as [[]|]; cbn [default]; split; split;
      congruence.
Qed.

(** [templating] raises its [ValueError] exactly when both the deployment
    and the pod template are asked for, and returns otherwise.  What it
    returns lists the default templates followed by the additional ones in
    their order; the default templates have distinct names, there are as
    many as one plus the options asked for, and the first is always the
    lookback-window template, whose query is the comma-joined list of
    values (the empty string for an empty list). *)
Theorem templating_templates
  (metric : option string) (include_deployment : option bool)
  (additional_templates : option (list pyval))
  (lookback_window_values : option (list string))
  (lookback_window_default : option string)
  (include_namespace include_pod : option bool)
  (namespace_label : option string) :
  let r :=
    Core.templating metric include_deployment additional_templates
      lookback_window_values lookback_window_default include_namespace
      include_pod namespace_label in
  let both := include_deployment = Some true /\ include_pod = Some true in
  (r = Raise (ValueError "cannot include both deployment and pod") <-> both) /\
  ((exists t, r = Return t) <-> ~ both) /\
  (forall t, r = Return t ->
   exists first rest,
     t = PCall "Templating"
           [("list", PList ((first :: rest)
                            ++ default [] additional_templates)%list)] /\
     NoDup (map Core.template_name (first :: rest)) /\
     length (first :: rest) =
       1 + (if default false include_namespace then 1 else 0)
         + (if default false include_deployment then 1 else 0)
         + (if default false include_pod then 1 else 0) /\
     Core.template_name first = Some (PStr "lookback_window") /\
     dict_get (Panels.kwargs_of first) "query" =
       Some (PStr (String.concat ","
                     (default ["2m"; "5m"; "10m"; "30m"; "1h"; "3h"; "6h";
                               "1d"; "1w"] lookback_window_values)))).
Proof.
  cbv zeta. unfold Core.templating. cbv zeta.
  destruct include_deployment as [[]|], include_pod as [[]|];
    cbn [default andb raise_if Py.bind];
    (split; [split; [try discriminate; tauto
                    |intros [H1 H2]; try discriminate; reflexivity]|]);
    (split; [split; [intros [t H]; try discriminate; intros [H1 H2];
                     discriminate
                    |intros H; try (elim H; now split); eexists; reflexivity]|]);
    intros t H; try discriminate; injection H as <-;
    destruct include_namespace as [[]|]; cbn [default app];
    match goal with
    | |- exists first rest,
           PCall _ [(_, PList (?a :: ?b :: ?c :: default [] _))] = _ /\ _ =>
        exists a, [b; c]
    | |- exists first rest,
           PCall _ [(_, PList (?a :: ?b :: default [] _))] = _ /\ _ =>
        exists a, [b]
    | |- exists first rest,
           PCall _ [(_, PList (?a :: default [] _))] = _ /\ _ =>
        exists a, []
    end;
    (split; [reflexivity|]);
    (split; [cbn; repeat constructor; cbn; intuition discriminate|]);
    (split; [reflexivity|]); split; reflexivity.
Qed.

(** ** deployment.py *)

Lemma append_assoc (a b c : string) : (a ++ b) ++ c = a ++ (b ++ c).
Proof. induction a as [|x a IH]; cbn; [reflexivity|now rewrite IH]. Qed.

Lemma Rate_valid (v : value) (f : string) :
  is_RangeVector v -> f = "rate" \/ f = "irate" ->
  Rate v (Some f) = Return (ORate f v).
Proof.
  intros Hv Hf. rewrite (Rate_RangeVector v (Some f) Hv). cbn [default].
  now rewrite (proj2 (str_in_VALID_FUNCTIONS f) Hf).
Qed.

Lemma Rate_invalid (v : value) (f : string) :
  is_RangeVector v -> ~ (f = "rate" \/ f = "irate") ->
  Rate v (Some f) =
    Raise (ValueError "Rate function should be one of: ['rate', 'irate']").
Proof.
  intros Hv Hf. rewrite (Rate_RangeVector v (Some f) Hv). cbn [default].
  destruct (str_in f Rate_.VALID_FUNCTIONS) eqn:E; [|reflexivity].
  now apply str_in_VALID_FUNCTIONS in E.
Qed.

Ltac string_eq :=
  repeat (progress (cbn; rewrite ?append_assoc)); reflexivity.

(** [information_row] returns a row exactly when the rate function is
    [rate] or [irate] and otherwise raises the [ValueError] of [Rate].
    The row has three panels whose queries are: the summed CPU rate by pod
    with the minimal CPU request and limit, the summed working set by pod
    with the minimal memory request and limit, and the pod count by phase;
    the pods are selected by a regular expression on the deployment name
    and series with an empty container label are left out. *)
Theorem information_row_queries
  (float_repr : float -> string)
  (rate_fn lookback_window deployment_name title : option string) :
  let f := default "rate" rate_fn in
  let w := default "$lookback_window" lookback_window in
  let d := default "[[deployment]]" deployment_name in
  let q := dquote in
  let pods :=
    "pod=~" ++ q ++ d ++ "-[a-z0-9]+[-]?[a-z0-9]*$" ++ q
    ++ ", container!=" ++ q ++ q in
  let r :=
    Deployment.information_row float_repr rate_fn lookback_window
      deployment_name title in
  (f = "rate" \/ f = "irate" ->
   exists row,
     r = Return row /\
     row_exprs row =
       [["sum(" ++ f ++ "(container_cpu_usage_seconds_total{" ++ pods ++ "}["
           ++ w ++ "])) by (pod)";
         "min(kube_pod_container_resource_requests{" ++ pods
           ++ ", resource=" ++ q ++ "cpu" ++ q ++ "})";
         "min(kube_pod_container_resource_limits{" ++ pods
           ++ ", resource=" ++ q ++ "cpu" ++ q ++ "})"];
        ["sum(container_memory_working_set_bytes{" ++ pods ++ "}) by (pod)";
         "min(kube_pod_container_resource_requests{" ++ pods
           ++ ", resource=" ++ q ++ "memory" ++ q ++ "})";
         "min(kube_pod_container_resource_limits{" ++ pods
           ++ ", resource=" ++ q ++ "memory" ++ q ++ "})"];
        ["sum(kube_pod_status_phase{pod=~" ++ q ++ d ++ ".*" ++ q
           ++ "}) by (phase)"]]) /\
  (~ (f = "rate" \/ f = "irate") ->
   r = Raise (ValueError "Rate function should be one of: ['rate', 'irate']")).
Proof.
  cbv zeta. unfold Deployment.information_row. cbv zeta.
  fold Core.DEFAULT_LOOKBACK_WINDOW.
  set (f := default "rate" rate_fn).
  set (w := default Core.DEFAULT_LOOKBACK_WINDOW lookback_window).
  set (d := default "[[deployment]]" deployment_name).
  rewrite !format_params_clauses.
  split; intros Hf.
  - rewrite Rate_valid by (exact I || exact Hf).
    cbn [Py.bind].
    eexists. split; [reflexivity|].
    unfold row_exprs, Panels.graph.
    cbn [Panels.kwargs_of dict_get String.eqb Ascii.eqb Bool.eqb map
         panel_exprs app flat_map target_expr].
    repeat (f_equal; try string_eq).
  - rewrite Rate_invalid by (exact I || exact Hf). reflexivity.
Qed.

(** ** grpc.py *)

Lemma Sum_by (v : value) (x : string) (xs : list string) :
  instant_capable v ->
  Sum v (Some (x :: xs)) None =
    Return (OAggregation A_Sum "sum" v
              (" by (" ++ String.concat ", " (x :: xs) ++ ")")).
Proof.
  intros Hv. unfold Sum.
  rewrite (Aggregation_not_both A_Sum "sum" v (Some (x :: xs)) None Hv).
  - reflexivity.
  - intros [_ H]. now apply H.
Qed.

Lemma DEFAULT_PERCENTILES_in_range :
  Forall (fun p => ~ out_of_range p) Core.DEFAULT_PERCENTILES.
Proof.
  repeat constructor; cbn; intros [H|H]; vm_compute in H; discriminate.
Qed.

Ltac run_row Hf :=
  repeat (first [ rewrite Rate_valid by (exact I || exact Hf)
                | rewrite Sum_by by exact I ];
          cbn [Py.bind]).

Section GrpcRows.

Variable float_repr : float -> string.
Variable percentile_legend : number -> string.

Lemma quantile_targets_return (pt : value) (ps : list number) :
  instant_capable pt -> Forall (fun p => ~ out_of_range p) ps ->
  Grpc.quantile_targets float_repr percentile_legend pt ps =
    Return
      (map (fun p =>
              PCall "Target"
                [("expr", PStr ("histogram_quantile("
                                ++ str_number float_repr p ++ ", "
                                ++ str float_repr pt ++ ")"));
                 ("legendFormat", PStr (percentile_legend p))])
         ps).
Proof.
  intros Hpt. unfold Grpc.quantile_targets.
  induction 1 as [|p ps Hp _ IH]; [reflexivity|].
  cbn [Grpc.comprehension map].
  rewrite (proj1 (HistogramQuantile_in_range p pt Hp) Hpt).
  cbn [Py.bind]. rewrite IH. reflexivity.
Qed.

Lemma quantile_targets_raise (pt : value) (ps : list number) :
  instant_capable pt -> Exists out_of_range ps ->
  Grpc.quantile_targets float_repr percentile_legend pt ps =
    Raise (ValueError "quantile should be between 0 and 1").
Proof.
  intros Hpt. unfold Grpc.quantile_targets.
  induction ps as [|p ps IH]; intros Hex; [inversion Hex|].
  cbn [Grpc.comprehension].
  destruct (lt_literal p 0 || gt_literal p 1) eqn:E.
  - apply quantile_check_iff in E.
    now rewrite (HistogramQuantile_out_of_range p pt E).
  - apply quantile_check_false in E.
    rewrite (proj1 (HistogramQuantile_in_range p pt E) Hpt).
    cbn [Py.bind]. rewrite IH; [reflexivity|].
    inversion Hex; subst; [contradiction|assumption].
Qed.

(** [server_row] raises the [ValueError] of [Rate] when the rate function
    is neither [rate] nor [irate]; otherwise it raises the [ValueError] of
    the quantile when some percentile lies outside 0 to 1; otherwise it
    returns a row of four panels whose queries are the request rate by
    method, one [histogram_quantile] of the handling-time buckets for each
    percentile in order, and the two error-percentage ratios.  The
    deployment name is a selector constraint like any other: a leading
    [~] or [!] turns it into a regular-expression or negative match. *)
Theorem server_row_queries
  (server_deployment_name : string) (rate_fn lookback_window : option string)
  (percentiles : option (list number)) :
  let f := default "rate" rate_fn in
  let w := default "$lookback_window" lookback_window in
  let ps := default Core.DEFAULT_PERCENTILES percentiles in
  let q := dquote in
  let sel :=
    clause_spec "kubernetes_name" server_deployment_name
    ++ ", grpc_method=~" ++ q ++ "$grpc_method" ++ q in
  let handled :=
    f ++ "(grpc_server_handled_total{" ++ sel ++ ", grpc_code!=" ++ q ++ "OK"
    ++ q ++ "}[" ++ w ++ "])" in
  let started := f ++ "(grpc_server_started_total{" ++ sel ++ "}[" ++ w ++ "])" in
  let r :=
    Grpc.server_row float_repr percentile_legend server_deployment_name
      rate_fn lookback_window percentiles in
  (~ (f = "rate" \/ f = "irate") ->
   r = Raise (ValueError "Rate function should be one of: ['rate', 'irate']")) /\
  (f = "rate" \/ f = "irate" -> Exists out_of_range ps ->
   r = Raise (ValueError "quantile should be between 0 and 1")) /\
  (f = "rate" \/ f = "irate" -> Forall (fun p => ~ out_of_range p) ps ->
   exists row,
     r = Return row /\
     row_exprs row =
       [["sum(" ++ f ++ "(grpc_server_handled_total{" ++ sel ++ "}[" ++ w
           ++ "])) by (grpc_method)"];
        map (fun p =>
               "histogram_quantile(" ++ str_number float_repr p ++ ", sum("
               ++ f ++ "(grpc_server_handling_seconds_bucket{" ++ sel ++ "}["
               ++ w ++ "])) by (le))") ps;
        ["sum(" ++ handled ++ ") by (grpc_method)/sum(" ++ started
           ++ ") by (grpc_method)*100"];
        ["sum(" ++ handled
           ++ ") by (grpc_method, grpc_code)/ignoring(grpc_code)group_left sum("
           ++ started ++ ") by (grpc_method)*100"]]).
Proof.
  cbv zeta. unfold Grpc.server_row. cbv zeta.
  fold Core.DEFAULT_LOOKBACK_WINDOW.
  set (f := default "rate" rate_fn).
  set (w := default Core.DEFAULT_LOOKBACK_WINDOW lookback_window).
  set (ps := default Core.DEFAULT_PERCENTILES percentiles).
  rewrite !format_params_clauses.
  split; [|split].
  - intros Hf. rewrite Rate_invalid by (exact I || exact Hf). reflexivity.
  - intros Hf Hps. run_row Hf.
    rewrite quantile_targets_raise by (exact I || exact Hps). reflexivity.
  - intros Hf Hps. run_row Hf.
    rewrite quantile_targets_return by (exact I || exact Hps).
    cbn [Py.bind].
    eexists. split; [reflexivity|].
    unfold row_exprs, Panels.graph.
    cbn [Panels.kwargs_of dict_get String.eqb Ascii.eqb Bool.eqb map
         panel_exprs app flat_map target_expr].
    f_equal; [f_equal; string_eq|].
    f_equal.
    { clear Hps. induction ps as [|p ps IH]; [reflexivity|].
      cbn [map flat_map]. rewrite IH.
        cbn [target_expr Panels.kwargs_of dict_get String.eqb Ascii.eqb
           Bool.eqb app].
      f_equal. string_eq. }
    repeat (f_equal; try string_eq).
Qed.

(** [client_row] raises the [ValueError] of [Rate] when the rate function
    is neither [rate] nor [irate]; otherwise it raises the [ValueError] of
    the quantile when some percentile lies outside 0 to 1; otherwise it
    returns a row of two panels whose queries are the client request rate
    by method and one [histogram_quantile] of the client handling-time
    buckets for each percentile in order. *)
Theorem client_row_queries
  (grpc_service : string) (rate_fn lookback_window : option string)
  (percentiles : option (list number)) :
  let f := default "rate" rate_fn in
  let w := default "$lookback_window" lookback_window in
  let ps := default Core.DEFAULT_PERCENTILES percentiles in
  let q := dquote in
  let sel :=
    clause_spec "grpc_service" grpc_service
    ++ ", grpc_method=~" ++ q ++ "$grpc_method" ++ q
    ++ ", kubernetes_name=~" ++ q ++ "$grpc_client" ++ q in
  let r :=
    Grpc.client_row float_repr percentile_legend grpc_service
      rate_fn lookback_window percentiles in
  (~ (f = "rate" \/ f = "irate") ->
   r = Raise (ValueError "Rate function should be one of: ['rate', 'irate']")) /\
  (f = "rate" \/ f = "irate" -> Exists out_of_range ps ->
   r = Raise (ValueError "quantile should be between 0 and 1")) /\
  (f = "rate" \/ f = "irate" -> Forall (fun p => ~ out_of_range p) ps ->
   exists row,
     r = Return row /\
     row_exprs row =
       [["sum(" ++ f ++ "(grpc_client_handled_total{" ++ sel ++ "}[" ++ w
           ++ "])) by (grpc_method)"];
        map (fun p =>
               "histogram_quantile(" ++ str_number float_repr p ++ ", sum("
               ++ f ++ "(grpc_client_handling_seconds_bucket{" ++ sel ++ "}["
               ++ w ++ "])) by (le))") ps]).
Proof.
  cbv zeta. unfold Grpc.client_row. cbv zeta.
  fold Core.DEFAULT_LOOKBACK_WINDOW.
  set (f := default "rate" rate_fn).
  set (w := default Core.DEFAULT_LOOKBACK_WINDOW lookback_window).
  set (ps := default Core.DEFAULT_PERCENTILES percentiles).
  rewrite !format_params_clauses.
  split; [|split].
  - intros Hf. rewrite Rate_invalid by (exact I || exact Hf). reflexivity.
  - intros Hf Hps. run_row Hf.
    rewrite quantile_targets_raise by (exact I || exact Hps). reflexivity.
  - intros Hf Hps. run_row Hf.
    rewrite quantile_targets_return by (exact I || exact Hps).
    cbn [Py.bind].
    eexists. split; [reflexivity|].
    unfold row_exprs, Panels.graph.
    cbn [Panels.kwargs_of dict_get String.eqb Ascii.eqb Bool.eqb map
         panel_exprs app flat_map target_expr].
    f_equal; [f_equal; string_eq|].
    f_equal.
    clear Hps. induction ps as [|p ps IH]; [reflexivity|].
    cbn [map flat_map]. rewrite IH.
    cbn [target_expr Panels.kwargs_of dict_get String.eqb Ascii.eqb
         Bool.eqb app].
    f_equal. string_eq.
Qed.

End GrpcRows.

Section GrpcDashboard.

Variable float_repr : float -> string.
Variable percentile_legend : number -> string.

Lemma server_row_outcome (name f w : string) (ps : list number) :
  (~ (f = "rate" \/ f = "irate") ->
   Grpc.server_row float_repr percentile_legend name (Some f) (Some w) (Some ps)
   = Raise (ValueError "Rate function should be one of: ['rate', 'irate']")) /\
  (f = "rate" \/ f = "irate" -> Exists out_of_range ps ->
   Grpc.server_row float_repr percentile_legend name (Some f) (Some w) (Some ps)
   = Raise (ValueError "quantile should be between 0 and 1")) /\
  (f = "rate" \/ f = "irate" -> Forall (fun p => ~ out_of_range p) ps ->
   exists row,
     Grpc.server_row float_repr percentile_legend name (Some f) (Some w)
       (Some ps) = Return row).
Proof.
  unfold Grpc.server_row. cbv zeta. cbn [default].
  split; [|split].
  - intros Hf. rewrite Rate_invalid by (exact I || exact Hf). reflexivity.
  - intros Hf Hps. run_row Hf.
    rewrite (quantile_targets_raise float_repr percentile_legend)
      by (exact I || exact Hps).
    reflexivity.
  - intros Hf Hps. run_row Hf.
    rewrite (quantile_targets_return float_repr percentile_legend)
      by (exact I || exact Hps).
    cbn [Py.bind]. eexists. reflexivity.
Qed.

Lemma client_row_outcome (service f w : string) (ps : list number) :
  f = "rate" \/ f = "irate" -> Forall (fun p => ~ out_of_range p) ps ->
  exists row,
    Grpc.client_row float_repr percentile_legend service (Some f) (Some w)
      (Some ps) = Return row.
Proof.
  unfold Grpc.client_row. cbv zeta. cbn [default].
  intros Hf Hps. run_row Hf.
  rewrite (quantile_targets_return float_repr percentile_legend)
    by (exact I || exact Hps).
  cbn [Py.bind]. eexists. reflexivity.
Qed.

Lemma information_row_default_rate (w d t : option string) :
  exists row, Deployment.information_row float_repr None w d t = Return row.
Proof.
  unfold Deployment.information_row. cbv zeta. cbn [default].
  rewrite Rate_valid by (exact I || now left).
  cbn [Py.bind]. eexists. reflexivity.
Qed.

(** [new_dashboard] fails only as [server_row] fails: with the
    [ValueError] of [Rate] for a rate function other than [rate] and
    [irate], else with the [ValueError] of the quantile for a percentile
    outside 0 to 1.  Otherwise it returns a dashboard whose rows are the
    server row, the client row and the deployment row, followed by the
    additional rows; the deployment row is built without the rate
    function, so it uses [rate] whatever [rate_fn] is; and its templates
    are the lookback window, the server's [grpc_method] and the client's
    [grpc_client], followed by the additional templates, so that every
    variable the default queries refer to is defined. *)
Theorem new_dashboard_rows
  (title server_deployment_name grpc_service : string)
  (description lookback_window rate_fn : option string)
  (percentiles : option (list number))
  (tags additional_templates additional_rows : option (list pyval))
  (shared_crosshair : option bool) :
  let f := default "rate" rate_fn in
  let w := default "$lookback_window" lookback_window in
  let ps := default Core.DEFAULT_PERCENTILES percentiles in
  let r :=
    Grpc.new_dashboard float_repr percentile_legend title
      server_deployment_name grpc_service description lookback_window rate_fn
      percentiles tags additional_templates additional_rows shared_crosshair in
  (~ (f = "rate" \/ f = "irate") ->
   r = Raise (ValueError "Rate function should be one of: ['rate', 'irate']")) /\
  (f = "rate" \/ f = "irate" -> Exists out_of_range ps ->
   r = Raise (ValueError "quantile should be between 0 and 1")) /\
  (f = "rate" \/ f = "irate" -> Forall (fun p => ~ out_of_range p) ps ->
   exists d server client information,
     r = Return d /\
     Grpc.server_row float_repr percentile_legend server_deployment_name
       (Some f) (Some w) (Some ps) = Return server /\
     Grpc.client_row float_repr percentile_legend grpc_service
       (Some f) (Some w) (Some ps) = Return client /\
     Deployment.information_row float_repr None (Some w)
       (Some server_deployment_name) None = Return information /\
     dashboard_rows d =
       ([server; client; information] ++ default [] additional_rows)%list /\
     map Core.template_name (dashboard_templates d) =
       ([Some (PStr "lookback_window"); Some (PStr "grpc_method");
         Some (PStr "grpc_client")]
        ++ map Core.template_name (default [] additional_templates))%list).
Proof.
  cbv zeta. unfold Grpc.new_dashboard. cbv zeta.
  fold Core.DEFAULT_LOOKBACK_WINDOW.
  set (f := default "rate" rate_fn).
  set (w := default Core.DEFAULT_LOOKBACK_WINDOW lookback_window).
  set (ps := default Core.DEFAULT_PERCENTILES percentiles).
  unfold Core.templating. cbv zeta. cbn [default andb raise_if Py.bind].
  destruct (server_row_outcome server_deployment_name f w ps)
    as (Hbad & Hquant & Hok).
  split; [|split].
  - intros Hf. rewrite (Hbad Hf). reflexivity.
  - intros Hf Hps. rewrite (Hquant Hf Hps). reflexivity.
  - intros Hf Hps.
    destruct (Hok Hf Hps) as [server Hs].
    destruct (client_row_outcome grpc_service f w ps Hf Hps) as [client Hc].
    destruct (information_row_default_rate (Some w)
                (Some server_deployment_name) None) as [info Hi].
    rewrite Hs, Hc, Hi. cbn [Py.bind].
    eexists. exists server, client, info.
    do 5 (split; [reflexivity|]).
    unfold dashboard_templates.
    cbn [Panels.kwargs_of dict_get String.eqb Ascii.eqb Bool.eqb app].
    reflexivity.
Qed.

End GrpcDashboard.

(** With every optional argument left out, the rows and the dashboard are
    built without error: [rate] is a valid rate function and each default
    percentile, the last of which is 1.00, lies within 0 to 1. *)
Theorem default_arguments_return
  (float_repr : float -> string) (percentile_legend : number -> string)
  (title server_deployment_name grpc_service : string) :
  (exists row,
     Grpc.server_row float_repr percentile_legend server_deployment_name
       None None None = Return row) /\
  (exists row,
     Grpc.client_row float_repr percentile_legend grpc_service
       None None None = Return row) /\
  (exists row,
     Deployment.information_row float_repr None None None None = Return row) /\
  (exists d,
     Grpc.new_dashboard float_repr percentile_legend title
       server_deployment_name grpc_service
       None None None None None None None None = Return d).
Proof.
  assert (Hf : "rate" = "rate" \/ "rate" = "irate") by now left.
  pose proof DEFAULT_PERCENTILES_in_range as Hps.
  destruct (server_row_outcome float_repr percentile_legend
              server_deployment_name "rate" Core.DEFAULT_LOOKBACK_WINDOW
              Core.DEFAULT_PERCENTILES) as (_ & _ & Hs).
  destruct (Hs Hf Hps) as [server Hserver].
  destruct (client_row_outcome float_repr percentile_legend grpc_service
              "rate" Core.DEFAULT_LOOKBACK_WINDOW Core.DEFAULT_PERCENTILES
              Hf Hps) as [client Hclient].
  split; [exists server; exact Hserver|].
  split; [exists client; exact Hclient|].
  split; [apply information_row_default_rate|].
  destruct (information_row_default_rate float_repr
              (Some Core.DEFAULT_LOOKBACK_WINDOW)
              (Some server_deployment_name) None) as [info Hinfo].
  unfold Grpc.new_dashboard. cbv zeta. cbn [default].
  unfold Core.templating. cbv zeta. cbn [default andb raise_if Py.bind].
  rewrite Hserver, Hclient, Hinfo. cbn [Py.bind].
  eexists. reflexivity.
Qed.

(** [templating_templates] at the namespace and deployment templates. *)
Lemma templating_templates_witness :
  exists t first rest,
    Core.templating (Some "up") (Some true) None None None (Some true) None None
    = Return t /\
    t = PCall "Templating" [("list", PList ((first :: rest) ++ [])%list)] /\
    NoDup (map Core.template_name (first :: rest)) /\
    length (first :: rest) = 3.
Proof.
  destruct (templating_templates (Some "up") (Some true) None None None
              (Some true) None None) as (_ & _ & H).
  destruct (H _ eq_refl) as (first & rest & Ht & Hnd & Hlen & _).
  eexists. exists first, rest.
  split; [reflexivity|]. split; [exact Ht|]. split; [exact Hnd|exact Hlen].
Defined.

(** [information_row_queries] with every argument left out. *)
Lemma information_row_queries_witness :
  exists row,
    Deployment.information_row (fun _ => "") None None None None = Return row /\
    nth_error (row_exprs row) 2 =
      Some ["sum(kube_pod_status_phase{pod=~" ++ dquote ++ "[[deployment]].*"
            ++ dquote ++ "}) by (phase)"].
Proof.
  destruct (information_row_queries (fun _ => "") None None None None)
    as [H _].
  destruct (H (or_introl eq_refl)) as [row [Hrow Hexprs]].
  exists row. split; [exact Hrow|].
  rewrite Hexprs. reflexivity.
Defined.

(** [server_row_queries] at the rate function [irate] and two
    percentiles. *)
Lemma server_row_queries_witness :
  exists row,
    Grpc.server_row (fun _ => "0.5") (fun _ => "") "api" (Some "irate")
      (Some "5m") (Some [PyFloat 0.5%float; PyInt 1]) = Return row /\
    length (row_exprs row) = 4.
Proof.
  destruct (server_row_queries (fun _ => "0.5") (fun _ => "") "api"
              (Some "irate") (Some "5m") (Some [PyFloat 0.5%float; PyInt 1]))
    as (_ & _ & H).
  assert (Hps : Forall (fun p => ~ out_of_range p) [PyFloat 0.5%float; PyInt 1]).
  { repeat constructor; cbn.
    - intros [E|E]; vm_compute in E; discriminate.
    - lia. }
  destruct (H (or_intror eq_refl) Hps) as [row [Hrow Hexprs]].
  exists row. split; [exact Hrow|].
  rewrite Hexprs. reflexivity.
Defined.

(** [client_row_queries] at a percentile above 1. *)
Lemma client_row_queries_witness :
  Grpc.client_row (fun _ => "") (fun _ => "") "svc" None None
    (Some [PyInt 2]) = Raise (ValueError "quantile should be between 0 and 1").
Proof.
  destruct (client_row_queries (fun _ => "") (fun _ => "") "svc" None None
              (Some [PyInt 2])) as (_ & H & _).
  apply H.
  - now left.
  - constructor. cbn. lia.
Defined.

(** [new_dashboard_rows] at a rate function that [Rate] rejects. *)
Lemma new_dashboard_rows_witness :
  Grpc.new_dashboard (fun _ => "") (fun _ => "") "gRPC" "api" "svc"
    None None (Some "increase") None None None None None =
    Raise (ValueError "Rate function should be one of: ['rate', 'irate']").
Proof.
  destruct (new_dashboard_rows (fun _ => "") (fun _ => "") "gRPC" "api" "svc"
              None None (Some "increase") None None None None None)
    as (H & _).
  apply H. cbn. intros [E|E]; discriminate.
Defined.

(** ** The store and the trees *)

Ltac break_match_hyp H :=
  repeat match type of H with
         | context [match ?x with _ => _ end] =>
             let E := fresh "E" in destruct x eqn:E; try discriminate H
         end.

(** An object that unfolds to a tree renders as the tree does. *)
Lemma value_of_str (float_repr : float -> string) (h : Store.heap) :
  forall fuel r v,
    value_of fuel h r = Some v ->
    Store.str float_repr fuel h r = Store.Done (str float_repr v).
Proof.
  induction fuel as [|fuel IH]; intros r v H; [discriminate|].
  cbn [value_of Store.str] in *.
  destruct (nth_error h r) as [o|]; [|discriminate].
  unfold value_of_object, option_map in H.
  unfold Store.str_method, Store.format_attr.
  cbv zeta in *.
  destruct (Store.cls o); try discriminate H; break_match_hyp H;
    repeat match goal with
           | E : value_of fuel h _ = Some _ |- _ => apply IH in E; rewrite E
           end;
    injection H as <-; reflexivity.
Qed.

(** ** The object store *)

Import Store.
Local Open Scope list_scope.

Lemma update_last (h : heap) (o : object) (f : object -> object) :
  update (length h) f (h ++ [o]) = (h ++ [f o])%list.
Proof.
  induction h as [|x h IH]; cbn; [reflexivity|now rewrite IH].
Qed.

Lemma setattr_fresh (h : heap) (o : object) (name : string) (a : attr) :
  setattr (length h) name a (h ++ [o])%list =
    (Return tt, (h ++ [mk_object (cls o) (assign (dict o) name a)])%list).
Proof. unfold setattr. now rewrite update_last. Qed.

(** Each [__init__] performs its checks before its first assignment: when
    it raises, the heap is the one it started from. *)
Lemma init_raise (c : call) (self : nat) (h h1 : heap) (e : exception) :
  init c self h = (Raise e, h1) -> h1 = h.
Proof.
  destruct c; cbn [init];
    unfold InstantVector_init, RangeVector_init, HistogramQuantile_init,
      Rate_init, Increase_init, Delta_init, Scalar_init,
      Store.Aggregation_init, Store.bind, Store.raise_if, Store.isinstance,
      raise, ret, setattr;
    intros H;
    repeat match type of H with
           | context [if ?b then _ else _] => destruct b
           end;
    congruence.
Qed.

Lemma run_raise (c : call) (h h' : heap) (e : exception) :
  run c h = (Raise e, h') -> h' = h.
Proof.
  unfold run, new. intros H.
  destruct (init c (length h) (h ++ [mk_object (class_of c) []])%list)
    as [[u|e'] h1] eqn:E; [discriminate|].
  injection H as -> <-.
  apply init_raise in E. subst h1. apply removelast_last.
Qed.

Lemma complete_intro (i : nat) (c : class) (d : list (string * attr)) :
  forallb (fun name => match getattr d name with Some _ => true | None => false end)
    (attributes c) = true ->
  (forall name r, getattr d name = Some (ARef r) -> r < i) ->
  complete i (mk_object c d).
Proof.
  intros Ha Hr. split; [|exact Hr].
  cbn [cls dict]. intros name Hin.
  rewrite forallb_forall in Ha. specialize (Ha name Hin).
  destruct (getattr d name) as [a|]; [now exists a|discriminate].
Qed.

Ltac init_steps H :=
  repeat first
    [ rewrite setattr_fresh in H; cbn [cls dict assign String.eqb Ascii.eqb Bool.eqb] in H
    | match type of H with
      | context [if ?b then _ else _] => destruct b
      end ].

Ltac only_reference H Hv :=
  cbn [getattr] in H;
  repeat match type of H with
         | context [if ?b then _ else _] => destruct b
         end;
  try discriminate; injection H as <-; exact Hv.

(** An [__init__] that returns leaves the heap extended by the new object
    alone, fully built. *)
Lemma init_return (c : call) (h h1 : heap) :
  arguments_exist c h ->
  init c (length h) (h ++ [mk_object (class_of c) []]) = (Return tt, h1) ->
  exists d, h1 = h ++ [mk_object (class_of c) d]
            /\ complete (length h) (mk_object (class_of c) d).
Proof.
  intros Hv H.
  destruct c; cbn [init class_of arguments_exist] in *;
    unfold InstantVector_init, RangeVector_init, HistogramQuantile_init,
      Rate_init, Increase_init, Delta_init, Scalar_init,
      Store.Aggregation_init, Store.bind, Store.raise_if, Store.isinstance,
      raise, ret in H;
    init_steps H; try discriminate;
    injection H as <-; eexists; (split; [reflexivity|]);
    (apply complete_intro; [reflexivity|]);
    intros name r Hg; try only_reference Hg Hv.
Qed.

Lemma run_return (c : call) (h h' : heap) (r : nat) :
  arguments_exist c h -> run c h = (Return r, h') ->
  r = length h /\
  exists o, h' = h ++ [o] /\ cls o = class_of c /\ complete (length h) o.
Proof.
  unfold run, new. intros Hv H.
  destruct (init c (length h) (h ++ [mk_object (class_of c) []]))
    as [[[]|e] h1] eqn:E; [|discriminate].
  injection H as <- <-. split; [reflexivity|].
  destruct (init_return c h h1 Hv E) as [d [-> Hc]].
  now exists (mk_object (class_of c) d).
Qed.

Lemma well_formed_snoc (h : heap) (o : object) :
  well_formed h -> complete (length h) o -> well_formed (h ++ [o]).
Proof.
  intros Hh Ho i x Hi.
  destruct (Nat.lt_ge_cases i (length h)) as [Hlt|Hge].
  - rewrite nth_error_app1 in Hi by exact Hlt. now apply Hh.
  - rewrite nth_error_app2 in Hi by exact Hge.
    destruct (i - length h) as [|k] eqn:E; cbn in Hi.
    + injection Hi as <-. now replace i with (length h) by lia.
    + now destruct k.
Qed.

Lemma reachable_well_formed (h : heap) : reachable h -> well_formed h.
Proof.
  induction 1 as [|h h' c r _ IH Hv Hrun].
  - intros i o Hi. now destruct i.
  - destruct r as [r|e].
    + destruct (run_return c h h' r Hv Hrun) as [_ [o [-> [_ Ho]]]].
      now apply well_formed_snoc.
    + now rewrite (run_raise c h h' e Hrun).
Qed.

Section StoreRendering.

Variable float_repr : float -> string.

Lemma format_attr_done (rec : nat -> outcome) (o : object) (name : string)
  (k : string -> outcome) :
  (exists a, getattr (dict o) name = Some a) ->
  (forall r, getattr (dict o) name = Some (ARef r) -> exists s, rec r = Done s) ->
  exists s, format_attr float_repr rec o name k = k s.
Proof.
  intros [a Ha] Hrec. unfold format_attr. rewrite Ha.
  destruct a as [s|q|r]; [now exists s|now eexists|].
  destruct (Hrec r Ha) as [s ->]. now exists s.
Qed.

Lemma str_method_done (rec : nat -> outcome) (i : nat) (o : object) :
  complete i o ->
  (forall r, r < i -> exists s, rec r = Done s) ->
  exists s, str_method float_repr rec o = Done s.
Proof.
  intros [Ha Hr] Hrec.
  assert (Hf : forall name k, In name (attributes (cls o)) ->
                 exists s, format_attr float_repr rec o name k = k s).
  { intros name k Hin. apply format_attr_done; [now apply Ha|].
    intros r Hg. apply Hrec. now apply (Hr name). }
  unfold str_method. cbv zeta.
  destruct (cls o); cbn [attributes] in Hf;
    repeat match goal with
           | |- context [format_attr float_repr rec o ?name ?k] =>
               let s := fresh "s" in
               destruct (Hf name k) as [s ->]; [cbn; tauto|]; cbv beta
           end;
    eexists; reflexivity.
Qed.

(** Rendering an object of a well-formed heap returns a string as soon as
    the fuel exceeds its index. *)
Lemma str_done (h : heap) :
  well_formed h ->
  forall r, r < length h ->
  forall fuel, r < fuel -> exists s, str float_repr fuel h r = Done s.
Proof.
  intros Hh r. induction r as [r IH] using (well_founded_induction lt_wf).
  intros Hr fuel Hfuel.
  destruct fuel as [|fuel]; [lia|]. cbn [str].
  destruct (nth_error h r) as [o|] eqn:E.
  - apply (str_method_done _ r o); [now apply Hh|].
    intros r' Hr'. apply IH; lia.
  - apply nth_error_None in E. lia.
Qed.

Lemma format_attr_ext (rec1 rec2 : nat -> outcome) (o : object) (name : string)
  (k1 k2 : string -> outcome) :
  (forall r, getattr (dict o) name = Some (ARef r) -> rec1 r = rec2 r) ->
  (forall s, k1 s = k2 s) ->
  format_attr float_repr rec1 o name k1 = format_attr float_repr rec2 o name k2.
Proof.
  intros Hrec Hk. unfold format_attr.
  destruct (getattr (dict o) name) as [[s|q|r]|]; auto.
  rewrite (Hrec r eq_refl). destruct (rec2 r); auto.
Qed.

Lemma str_method_ext (rec1 rec2 : nat -> outcome) (o : object) :
  (forall name r, getattr (dict o) name = Some (ARef r) -> rec1 r = rec2 r) ->
  str_method float_repr rec1 o = str_method float_repr rec2 o.
Proof.
  intros Hrec. unfold str_method. cbv zeta.
  destruct (cls o);
    repeat (apply format_attr_ext; [now apply Hrec|intros ?]); reflexivity.
Qed.

(** Allocating an object changes the rendering of no older object. *)
Lemma str_snoc (h : heap) (o : object) :
  well_formed h ->
  forall fuel r, r < length h ->
  str float_repr fuel (h ++ [o]) r = str float_repr fuel h r.
Proof.
  intros Hh fuel. induction fuel as [|fuel IH]; intros r Hr; [reflexivity|].
  cbn [str]. rewrite nth_error_app1 by exact Hr.
  destruct (nth_error h r) as [x|] eqn:E; [|reflexivity].
  apply str_method_ext. intros name r' Hg. apply IH.
  destruct (Hh r x E) as [_ Hlt]. specialize (Hlt name r' Hg). lia.
Qed.

End StoreRendering.






(** C8: the errors are raised by the constructors only.  On every heap
    built by constructor calls, rendering any object returns a string
    (given fuel for its nesting depth) and never fails; a constructor call
    that raises leaves the heap as it was, its [__init__] having set no
    attribute, and returns no object; a call that returns allocates
    exactly the new object, which renders, and leaves every older object
    and its rendering unchanged. *)
Theorem errors_only_at_construction
  (float_repr : float -> string) (h : heap) :
  reachable h ->
  (forall r fuel, r < length h -> length h <= fuel ->
     exists s, str float_repr fuel h r = Done s) /\
  (forall c e h', run c h = (Raise e, h') -> h' = h) /\
  (forall c e h1,
     init c (length h) (h ++ [mk_object (class_of c) []]) = (Raise e, h1) ->
     h1 = h ++ [mk_object (class_of c) []]) /\
  (forall c r h',
     arguments_exist c h -> run c h = (Return r, h') ->
     r = length h /\ length h' = S (length h) /\ firstn (length h) h' = h /\
     reachable h' /\
     (exists s, str float_repr (length h') h' r = Done s) /\
     (forall fuel r0, r0 < length h ->
        str float_repr fuel h' r0 = str float_repr fuel h r0)).
Proof.
  intros Hreach.
  assert (Hwf : well_formed h) by now apply reachable_well_formed.
  split; [|split; [|split]].
  - intros r fuel Hr Hfuel. apply str_done; [exact Hwf|exact Hr|lia].
  - intros c e h'. apply run_raise.
  - intros c e h1. apply init_raise.
  - intros c r h' Hv Hrun.
    assert (Hreach' : reachable h')
      by exact (reachable_call h h' c (Return r) Hreach Hv Hrun).
    destruct (run_return c h h' r Hv Hrun) as [-> [o [-> [_ Ho]]]].
    split; [reflexivity|].
    split; [rewrite length_app; cbn; lia|].
    split; [rewrite firstn_app, firstn_all, Nat.sub_diag; cbn;
            apply app_nil_r|].
    split; [exact Hreach'|].
    split.
    + apply str_done.
      * now apply reachable_well_formed.
      * rewrite length_app. cbn. lia.
      * rewrite length_app. cbn. lia.
    + intros fuel r0 Hr0. now apply str_snoc.
Qed.

(** [errors_only_at_construction] on the heap holding one instant vector:
    [Rate] over it raises and leaves the heap unchanged, [Sum] over it
    returns the next reference. *)
Lemma errors_only_at_construction_witness :
  reachable [mk_object C_InstantVector
               [("metric", AStr "test_total"); ("params", AStr "{}")]] /\
  (exists s,
     str (fun _ => ""%string) 1
       [mk_object C_InstantVector
          [("metric", AStr "test_total"); ("params", AStr "{}")]] 0 = Done s) /\
  (forall e h',
     run (Call_Rate 0 None)
       [mk_object C_InstantVector
          [("metric", AStr "test_total"); ("params", AStr "{}")]] = (Raise e, h') ->
     h' = [mk_object C_InstantVector
             [("metric", AStr "test_total"); ("params", AStr "{}")]]).
Proof.
  assert (H : reachable [mk_object C_InstantVector
                [("metric", AStr "test_total"); ("params", AStr "{}")]]).
  { apply (reachable_call [] _ (Call_InstantVector "test_total" (Some "{}"%string))
             (Return 0) reachable_empty I).
    reflexivity. }
  destruct (errors_only_at_construction (fun _ => ""%string) _ H)
    as (Hstr & Hraise & _).
  split; [exact H|]. split.
  - apply Hstr; cbn; lia.
  - intros e h'. apply Hraise.
Defined.

(** ** Well-kinded heaps *)







